(** * rpm-repo-proxy: the metadata pipeline

    A shallow embedding of the TypeScript sources
    - [src/rpm-metadata.ts], the extractor (module [Rpm]),
    - the repository index generator, imported as [./repo-metadata]
      (module [Repo]),
    - [src/providers/base.ts], the provider interface (module [Providers]),
    - [src/providers/cursor.ts], the Cursor provider (module [Cursor]),
    - the worker, [./index]: scheduled discovery and the request handlers
      (module [Worker]),
    - the [VersionManager] class, imported as [./version-discovery]
      (module [Versions]),
    - the [MetadataManager] class (module [Metadata]),
    and the properties of the specification that concern them. *)

From Stdlib Require Import ZArith NArith Decimal Ascii.
From stdpp Require Import base option list gmap strings.

(** ** JavaScript values shared by all modules *)

(** A JavaScript string is a sequence of UTF-16 code units; [length] counts
    code units, exactly as the [.length] property does. *)
Abbreviation jsstring := (list N).

(** The text of a string literal or of a template chunk of the source. *)
Fixpoint lit (s : string) : jsstring :=
  match s with
  | EmptyString => []
  | String c r => N_of_ascii c :: lit r
  end.

(** The same for markup: the source's double quote (code unit 34) is written
    as an apostrophe inside [tpl], no template of the source contains an
    apostrophe of its own. *)
Fixpoint tpl (s : string) : jsstring :=
  match s with
  | EmptyString => []
  | String c r => (if Ascii.eqb c "'" then 34%N else N_of_ascii c) :: tpl r
  end.

(** The empty string literal. *)
Definition emptyString : jsstring := [].

(** The escape [\n]. *)
Definition nl : jsstring := [10%N].

(** Truthiness of a string that may be [undefined]: defined and not empty. *)
Definition truthy (s : option jsstring) : bool :=
  match s with
  | Some (_ :: _) => true
  | _ => false
  end.

(** A JavaScript number that is an integer or [NaN] ([None]). *)
Abbreviation jsnum := (option Z).

Fixpoint digits (u : Decimal.uint) : jsstring :=
  match u with
  | Nil => []
  | D0 r => 48%N :: digits r
  | D1 r => 49%N :: digits r
  | D2 r => 50%N :: digits r
  | D3 r => 51%N :: digits r
  | D4 r => 52%N :: digits r
  | D5 r => 53%N :: digits r
  | D6 r => 54%N :: digits r
  | D7 r => 55%N :: digits r
  | D8 r => 56%N :: digits r
  | D9 r => 57%N :: digits r
  end.

(** [String(n)] for an integer below 10^21 in absolute value (above it
    JavaScript switches to exponent notation; no length, size or epoch time
    of this program gets there). *)
Definition intToString (z : Z) : jsstring :=
  match Z.to_int z with
  | Pos u => digits u
  | Neg u => 45%N :: digits u
  end.

(** A number inside a template literal. *)
Definition numToString (n : jsnum) : jsstring :=
  match n with
  | Some z => intToString z
  | None => lit "NaN"
  end.

(** ** src/rpm-metadata.ts *)
Module Rpm.

Record Dependency := mkDependency {
  name : jsstring;
  version : option jsstring;
  flags : option jsstring
}.

(** The object literal [flagMap]: comparison bits to flag names. *)
Definition flagMap : gmap Z jsstring :=
  list_to_map [ (2%Z, lit "LT"); (4%Z, lit "GT"); (8%Z, lit "EQ");
                (10%Z, lit "LE"); (12%Z, lit "GE") ].

(** The callback of [requireNames.map((name, i) => ...)].  An index past the
    end of [requireVersions] or [requireFlags] reads [undefined]. *)
Definition dependency (requireVersions : list jsstring) (requireFlags : list Z)
    (i : nat) (name : jsstring) : Dependency :=
  let dep := mkDependency name None None in
  let version := requireVersions !! i in
  let flagNum := requireFlags !! i in
  let dep :=
    if truthy version then mkDependency (Rpm.name dep) version (flags dep)
    else dep in
  let dep :=
    match flagNum with
    | Some n =>
        if (n =? 0)%Z then dep
        else
          let comparisonBits := Z.land n 15 in
          if truthy (flagMap !! comparisonBits)
          then mkDependency (Rpm.name dep) (Rpm.version dep)
                            (flagMap !! comparisonBits)
          else dep
    | None => dep
    end in
  dep.

Definition dependencies (requireNames requireVersions : list jsstring)
    (requireFlags : list Z) : list Dependency :=
  imap (dependency requireVersions requireFlags) requireNames.

(** The value a [Date] holds: milliseconds since the epoch, or [NaN] for an
    invalid date. *)
Record Date := mkDate { getTime : jsnum }.

Section Extract.
(** [digest: any], whatever the header parser reports. *)
Context {Digest : Type}.

(** What [parseRpmPackage] returns: the fields the extractor reads and the
    three [pkg.get(DependencyTag...)] lookups, [None] when the tag is
    absent. *)
Record RpmPackage := mkRpmPackage {
  pkg_name : jsstring;
  pkg_version : jsstring;
  pkg_release : jsstring;
  pkg_arch : jsstring;
  pkg_summery : jsstring;
  pkg_description : jsstring;
  pkg_vendor : jsstring;
  pkg_license : jsstring;
  pkg_packager : jsstring;
  pkg_os : jsstring;
  pkg_platform : jsstring;
  pkg_size : jsnum;
  pkg_buildTime : Date;
  pkg_digest : Digest;
  get_RequireName : option (list jsstring);
  get_RequireVersion : option (list jsstring);
  get_RequireFlags : option (list Z)
}.

Record RpmMetadata := mkRpmMetadata {
  md_name : jsstring;
  md_version : jsstring;
  md_release : jsstring;
  md_arch : jsstring;
  md_summary : jsstring;
  md_description : jsstring;
  md_vendor : jsstring;
  md_license : jsstring;
  md_packager : jsstring;
  md_os : jsstring;
  md_platform : jsstring;
  md_filename : jsstring;
  md_size_package : jsnum;
  md_size_installed : jsnum;
  md_checksum_type : jsstring;
  md_checksum_value : jsstring;
  md_url : jsstring;
  md_buildTime : Date;
  md_dependencies : list Dependency;
  md_digest : Digest
}.

(** What the two fetches can throw. *)
Inductive ExtractError :=
  | HeaderFetchFailed (status : Z)
  | RpmFetchFailed (status : Z)
  | ParseFailed.

(** [extractRpmMetadata] from the point where both promises have settled:
    [headerPromise] is the parsed package or its failure,
    [hashAndSizePromise] the pair [{checksum, packageSize}] or its failure.
    [Promise.all] rejects as soon as one of them does; when both fail, which
    failure is reported depends on timing, and the header's is taken here. *)
Definition extractRpmMetadata
    (headerPromise : ExtractError + RpmPackage)
    (hashAndSizePromise : ExtractError + (jsstring * jsnum))
    (rpmUrl filename : jsstring) : ExtractError + RpmMetadata :=
  match headerPromise, hashAndSizePromise with
  | inl e, _ => inl e
  | _, inl e => inl e
  | inr pkg, inr (sha256Checksum, packageSize) =>
      let requireNames := default [] (get_RequireName pkg) in
      let requireVersions := default [] (get_RequireVersion pkg) in
      let requireFlags := default [] (get_RequireFlags pkg) in
      let dependencies := dependencies requireNames requireVersions requireFlags in
      inr {| md_name := pkg_name pkg;
             md_version := pkg_version pkg;
             md_release := pkg_release pkg;
             md_arch := pkg_arch pkg;
             md_summary := pkg_summery pkg;
             md_description := pkg_description pkg;
             md_vendor := pkg_vendor pkg;
             md_license := pkg_license pkg;
             md_packager := pkg_packager pkg;
             md_os := pkg_os pkg;
             md_platform := pkg_platform pkg;
             md_filename := filename;
             md_size_package := packageSize;
             md_size_installed := pkg_size pkg;
             md_checksum_type := lit "sha256";
             md_checksum_value := sha256Checksum;
             md_url := rpmUrl;
             md_buildTime := pkg_buildTime pkg;
             md_dependencies := dependencies;
             md_digest := pkg_digest pkg |}
  end.

End Extract.

End Rpm.

(** ** The runtime: key-value namespace, wall clock, network *)

(** What the Workers runtime offers to the managers: a KV namespace holding
    JSON documents of type [V] (the JSON text is parsed on every read and
    printed on every write, the model keeps the document itself), a wall
    clock, given by the readings it will return, and the network the
    provider talks to. *)
Record World (V Net : Type) := mkWorld {
  kv : gmap jsstring V;
  time : nat → Z;
  reads : nat;
  net : Net
}.
Arguments mkWorld {V Net}.
Arguments kv {V Net}.
Arguments time {V Net}.
Arguments reads {V Net}.
Arguments net {V Net}.

(** A thrown [Error] and its message. *)
Inductive Error := Thrown (message : jsstring).

(** An [async] function: run in a world, it throws or returns, and leaves a
    world. *)
Definition M (W A : Type) : Type := W → (Error + A) * W.

Definition ret {W A} (a : A) : M W A := λ w, (inr a, w).

Definition bind {W A B} (m : M W A) (k : A → M W B) : M W B :=
  λ w, match m w with
       | (inl e, w') => (inl e, w')
       | (inr a, w') => k a w'
       end.

(** [const x = await m; k]. *)
Notation "'let*' x ':=' m 'in' k" := (bind m (λ x, k))
  (at level 10, x name, m at level 100, k at level 200).

Section Runtime.
Context {V Net : Type}.

(** [kv.get(key, 'json')]: the stored document, or [null]. *)
Definition kv_get (key : jsstring) : M (World V Net) (option V) :=
  λ w, (inr (kv w !! key), w).

(** [kv.put(key, JSON.stringify(value))]. *)
Definition kv_put (key : jsstring) (value : V) : M (World V Net) unit :=
  λ w, (inr (), mkWorld (<[key := value]> (kv w)) (time w) (reads w) (net w)).

(** [kv.delete(key)]. *)
Definition kv_delete (key : jsstring) : M (World V Net) unit :=
  λ w, (inr (), mkWorld (delete key (kv w)) (time w) (reads w) (net w)).

(** [new Date()]: the next reading of the wall clock. *)
Definition Date_now : M (World V Net) Z :=
  λ w, (inr (time w (reads w)), mkWorld (kv w) (time w) (S (reads w)) (net w)).

End Runtime.

(** ** The repository index generator ([./repo-metadata]) *)
Module Repo.

(** The elements of a [Uint8Array]. *)
Abbreviation bytes := (list N).

Record PackageMetadata := mkPackageMetadata {
  name : jsstring;
  version : jsstring;
  release : jsstring;
  arch : jsstring;
  summary : jsstring;
  description : jsstring;
  packager : jsstring;
  buildTime : Rpm.Date;
  size_package : jsnum;
  size_installed : jsnum;
  checksum_type : jsstring;
  checksum_value : jsstring;
  filename : jsstring;
  license : jsstring;
  vendor : jsstring;
  dependencies : option (list Rpm.Dependency)
}.

Record MetadataFileInfo := mkMetadataFileInfo {
  checksum : jsstring;
  checksumGz : jsstring;
  size : nat;
  sizeGz : nat
}.

(** One of the [primary], [filelists] and [other] members of
    [RepoMetadata]. *)
Record Document := mkDocument {
  xml : jsstring;
  gz : bytes;
  doc_checksum : jsstring;
  openChecksum : jsstring;
  doc_size : nat;
  openSize : nat
}.

Record RepoMetadata := mkRepoMetadata {
  repomd_xml : jsstring;
  primary : Document;
  filelists : Document;
  other : Document
}.

(** [str.replace(/c/g, by)] for a one-character pattern. *)
Definition replace (c : N) (by_ : jsstring) (str : jsstring) : jsstring :=
  str ≫= (λ u, if (u =? c)%N then by_ else [u]).

Definition escapeXml (str : jsstring) : jsstring :=
  if negb (truthy (Some str)) then []
  else
    replace 39 (lit "&apos;")
      (replace 34 (lit "&quot;")
        (replace 62 (lit "&gt;")
          (replace 60 (lit "&lt;")
            (replace 38 (lit "&amp;") str)))).

(** [new TextEncoder().encode(s)]: UTF-8 of the scalar values of [s]; a high
    surrogate followed by a low one is one scalar value, any other surrogate
    is replaced by U+FFFD. *)
Definition utf8_scalar (c : N) : bytes :=
  if (c <? 128)%N then [c]
  else if (c <? 2048)%N then
    [192 + c / 64; 128 + c mod 64]%N
  else if (c <? 65536)%N then
    [224 + c / 4096; 128 + (c / 64) mod 64; 128 + c mod 64]%N
  else
    [240 + c / 262144; 128 + (c / 4096) mod 64; 128 + (c / 64) mod 64;
     128 + c mod 64]%N.

Definition is_high (u : N) : bool := (55296 <=? u)%N && (u <=? 56319)%N.
Definition is_low (u : N) : bool := (56320 <=? u)%N && (u <=? 57343)%N.

Fixpoint TextEncoder_encode (s : jsstring) : bytes :=
  match s with
  | [] => []
  | u :: rest =>
      if is_high u then
        match rest with
        | l :: rest' =>
            if is_low l then
              utf8_scalar (65536 + (u - 55296) * 1024 + (l - 56320))%N
                ++ TextEncoder_encode rest'
            else utf8_scalar 65533 ++ TextEncoder_encode rest
        | [] => utf8_scalar 65533
        end
      else if is_low u then utf8_scalar 65533 ++ TextEncoder_encode rest
      else utf8_scalar u ++ TextEncoder_encode rest
  end.

(** [string | Uint8Array]. *)
Inductive Data := Str (s : jsstring) | Buf (b : bytes).

(** [typeof data === 'string' ? new TextEncoder().encode(data) : data]. *)
Definition buffer_of (data : Data) : bytes :=
  match data with
  | Str s => TextEncoder_encode s
  | Buf b => b
  end.

Definition hexDigit (d : N) : N := if (d <? 10)%N then (48 + d)%N else (87 + d)%N.

(** [b.toString(16).padStart(2, '0')] for a byte. *)
Definition hex2 (b : N) : jsstring := [hexDigit (b / 16); hexDigit (b mod 16)].

Section Generator.
(** The platform's [crypto.subtle.digest('SHA-256', _)] and
    [CompressionStream('gzip')], functions of the bytes they are given. *)
Variable digest_SHA256 : bytes → bytes.
Variable CompressionStream_gzip : bytes → bytes.
(** The generator runs in whatever world the request handler runs in. *)
Context {W : Type}.

Definition calculateSha256 (data : Data) : M W jsstring :=
  let buffer := buffer_of data in
  let hashArray := digest_SHA256 buffer in
  ret (hashArray ≫= hex2).

Definition gzipCompress (data : Data) : M W bytes :=
  let buffer := buffer_of data in
  ret (CompressionStream_gzip buffer).

(** [Math.floor(new Date(buildTime).getTime() / 1000)]. *)
Definition epochSeconds (d : Rpm.Date) : jsnum :=
  (λ ms, ms / 1000)%Z <$> Rpm.getTime d.

(** One [<rpm:entry>] of the requires block, appended to [xml]. *)
Definition requiresEntry (xml : jsstring) (dep : Rpm.Dependency) : jsstring :=
  let depName := escapeXml (Rpm.name dep) in
  let flags :=
    if truthy (Rpm.flags dep)
    then tpl " flags='" ++ escapeXml (default [] (Rpm.flags dep)) ++ tpl "'"
    else [] in
  let version :=
    if truthy (Rpm.version dep)
    then tpl " ver='" ++ escapeXml (default [] (Rpm.version dep)) ++ tpl "'"
    else [] in
  xml ++ (tpl "        <rpm:entry name='" ++ depName ++ tpl "'" ++ flags
            ++ version ++ tpl "/>" ++ nl).

(** The body of the loop of [generatePrimaryXml]. *)
Definition primaryPackage (timestamp : jsnum) (xml : jsstring)
    (pkg : PackageMetadata) : jsstring :=
  let xml := xml ++ (tpl "  <package type='rpm'>" ++ nl) in
  let xml := xml ++ (tpl "    <name>" ++ escapeXml (name pkg) ++ tpl "</name>" ++ nl) in
  let xml := xml ++ (tpl "    <arch>" ++ escapeXml (arch pkg) ++ tpl "</arch>" ++ nl) in
  let xml := xml ++ (tpl "    <version epoch='0' ver='" ++ escapeXml (version pkg)
                       ++ tpl "' rel='" ++ escapeXml (release pkg) ++ tpl "'/>" ++ nl) in
  let xml := xml ++ (tpl "    <checksum type='" ++ checksum_type pkg
                       ++ tpl "' pkgid='YES'>" ++ checksum_value pkg
                       ++ tpl "</checksum>" ++ nl) in
  let xml := xml ++ (tpl "    <summary>" ++ escapeXml (summary pkg) ++ tpl "</summary>" ++ nl) in
  let xml := xml ++ (tpl "    <description>" ++ escapeXml (description pkg)
                       ++ tpl "</description>" ++ nl) in
  let xml := xml ++ (tpl "    <packager>" ++ escapeXml (packager pkg) ++ tpl "</packager>" ++ nl) in
  let xml := xml ++ (tpl "    <url></url>" ++ nl) in
  let xml := xml ++ (tpl "    <time file='" ++ numToString timestamp ++ tpl "' build='"
                       ++ numToString (epochSeconds (buildTime pkg)) ++ tpl "'/>" ++ nl) in
  let xml := xml ++ (tpl "    <size package='" ++ numToString (size_package pkg)
                       ++ tpl "' installed='" ++ numToString (size_installed pkg)
                       ++ tpl "' archive='0'/>" ++ nl) in
  let xml := xml ++ (tpl "    <location href='" ++ escapeXml (filename pkg) ++ tpl "'/>" ++ nl) in
  let xml := xml ++ (tpl "    <format>" ++ nl) in
  let xml := xml ++ (tpl "      <rpm:license>" ++ escapeXml (license pkg)
                       ++ tpl "</rpm:license>" ++ nl) in
  let xml := xml ++ (tpl "      <rpm:vendor>" ++ escapeXml (vendor pkg)
                       ++ tpl "</rpm:vendor>" ++ nl) in
  let xml := xml ++ (tpl "      <rpm:buildhost></rpm:buildhost>" ++ nl) in
  let xml := xml ++ (tpl "      <rpm:header-range start='0' end='0'/>" ++ nl) in
  let xml := xml ++ (tpl "      <rpm:provides>" ++ nl) in
  let xml := xml ++ (tpl "        <rpm:entry name='" ++ escapeXml (name pkg)
                       ++ tpl "' flags='EQ' epoch='0' ver='" ++ escapeXml (version pkg)
                       ++ tpl "' rel='" ++ escapeXml (release pkg) ++ tpl "'/>" ++ nl) in
  let xml := xml ++ (tpl "        <rpm:entry name='" ++ escapeXml (name pkg) ++ tpl "("
                       ++ escapeXml (arch pkg) ++ tpl ")' flags='EQ' epoch='0' ver='"
                       ++ escapeXml (version pkg) ++ tpl "' rel='"
                       ++ escapeXml (release pkg) ++ tpl "'/>" ++ nl) in
  let xml := xml ++ (tpl "      </rpm:provides>" ++ nl) in
  let xml :=
    match dependencies pkg with
    | Some ((_ :: _) as deps) =>
        let xml := xml ++ (tpl "      <rpm:requires>" ++ nl) in
        let xml := fold_left requiresEntry deps xml in
        xml ++ (tpl "      </rpm:requires>" ++ nl)
    | _ => xml
    end in
  let xml := xml ++ (tpl "    </format>" ++ nl) in
  xml ++ (tpl "  </package>" ++ nl).

Definition generatePrimaryXml (packages : list PackageMetadata)
    (timestamp : jsnum) : jsstring :=
  let xml := tpl "<?xml version='1.0' encoding='UTF-8'?>" ++ nl in
  let xml := xml ++ (tpl "<metadata xmlns='http://linux.duke.edu/metadata/common' xmlns:rpm='http://linux.duke.edu/metadata/rpm' packages='"
                       ++ intToString (Z.of_nat (length packages)) ++ tpl "'>" ++ nl) in
  let xml := fold_left (primaryPackage timestamp) packages xml in
  xml ++ (tpl "</metadata>" ++ nl).

(** The body of the loops of [generateFilelistsXml] and [generateOtherXml],
    which are the same text. *)
Definition auxPackage (xml : jsstring) (pkg : PackageMetadata) : jsstring :=
  let xml := xml ++ (tpl "  <package pkgid='" ++ checksum_value pkg ++ tpl "' name='"
                       ++ escapeXml (name pkg) ++ tpl "' arch='" ++ escapeXml (arch pkg)
                       ++ tpl "'>" ++ nl) in
  let xml := xml ++ (tpl "    <version epoch='0' ver='" ++ escapeXml (version pkg)
                       ++ tpl "' rel='" ++ escapeXml (release pkg) ++ tpl "'/>" ++ nl) in
  xml ++ (tpl "  </package>" ++ nl).

Definition generateFilelistsXml (packages : list PackageMetadata) : jsstring :=
  let xml := tpl "<?xml version='1.0' encoding='UTF-8'?>" ++ nl in
  let xml := xml ++ (tpl "<filelists xmlns='http://linux.duke.edu/metadata/filelists' packages='"
                       ++ intToString (Z.of_nat (length packages)) ++ tpl "'>" ++ nl) in
  let xml := fold_left auxPackage packages xml in
  xml ++ (tpl "</filelists>" ++ nl).

Definition generateOtherXml (packages : list PackageMetadata) : jsstring :=
  let xml := tpl "<?xml version='1.0' encoding='UTF-8'?>" ++ nl in
  let xml := xml ++ (tpl "<otherdata xmlns='http://linux.duke.edu/metadata/other' packages='"
                       ++ intToString (Z.of_nat (length packages)) ++ tpl "'>" ++ nl) in
  let xml := fold_left auxPackage packages xml in
  xml ++ (tpl "</otherdata>" ++ nl).

(** One [<data type=...>] block of [generateRepomdXml], appended to [xml]. *)
Definition repomdData (type href : string) (timestamp : jsnum)
    (info : MetadataFileInfo) (xml : jsstring) : jsstring :=
  let xml := xml ++ (tpl "  <data type='" ++ lit type ++ tpl "'>" ++ nl) in
  let xml := xml ++ (tpl "    <checksum type='sha256'>" ++ checksumGz info
                       ++ tpl "</checksum>" ++ nl) in
  let xml := xml ++ (tpl "    <open-checksum type='sha256'>" ++ checksum info
                       ++ tpl "</open-checksum>" ++ nl) in
  let xml := xml ++ (tpl "    <location href='" ++ lit href ++ tpl "'/>" ++ nl) in
  let xml := xml ++ (tpl "    <timestamp>" ++ numToString timestamp
                       ++ tpl "</timestamp>" ++ nl) in
  let xml := xml ++ (tpl "    <size>" ++ intToString (Z.of_nat (sizeGz info))
                       ++ tpl "</size>" ++ nl) in
  let xml := xml ++ (tpl "    <open-size>" ++ intToString (Z.of_nat (size info))
                       ++ tpl "</open-size>" ++ nl) in
  xml ++ (tpl "  </data>" ++ nl).

Definition generateRepomdXml (timestamp : jsnum)
    (primaryInfo filelistsInfo otherInfo : MetadataFileInfo) : jsstring :=
  let xml := tpl "<?xml version='1.0' encoding='UTF-8'?>" ++ nl in
  let xml := xml ++ (tpl "<repomd xmlns='http://linux.duke.edu/metadata/repo' xmlns:rpm='http://linux.duke.edu/metadata/rpm'>" ++ nl) in
  let xml := xml ++ (tpl "  <revision>" ++ numToString timestamp ++ tpl "</revision>" ++ nl) in
  let xml := repomdData "primary" "repodata/primary.xml.gz" timestamp primaryInfo xml in
  let xml := repomdData "filelists" "repodata/filelists.xml.gz" timestamp filelistsInfo xml in
  let xml := repomdData "other" "repodata/other.xml.gz" timestamp otherInfo xml in
  xml ++ (tpl "</repomd>" ++ nl).

(** [packages.length > 0 ? Math.floor(... packages[0].buildTime ...) : 0]. *)
Definition repoTimestamp (packages : list PackageMetadata) : jsnum :=
  match packages with
  | pkg0 :: _ => epochSeconds (buildTime pkg0)
  | [] => Some 0%Z
  end.

Definition generateRepoMetadata (packages : list PackageMetadata) : M W RepoMetadata :=
  let timestamp := repoTimestamp packages in
  let primaryXml := generatePrimaryXml packages timestamp in
  let filelistsXml := generateFilelistsXml packages in
  let otherXml := generateOtherXml packages in
  let* primaryGz := gzipCompress (Str primaryXml) in
  let* filelistsGz := gzipCompress (Str filelistsXml) in
  let* otherGz := gzipCompress (Str otherXml) in
  let* primaryChecksum := calculateSha256 (Str primaryXml) in
  let* primaryChecksumGz := calculateSha256 (Buf primaryGz) in
  let* filelistsChecksum := calculateSha256 (Str filelistsXml) in
  let* filelistsChecksumGz := calculateSha256 (Buf filelistsGz) in
  let* otherChecksum := calculateSha256 (Str otherXml) in
  let* otherChecksumGz := calculateSha256 (Buf otherGz) in
  let repomdXml :=
    generateRepomdXml timestamp
      (mkMetadataFileInfo primaryChecksum primaryChecksumGz
         (length primaryXml) (length primaryGz))
      (mkMetadataFileInfo filelistsChecksum filelistsChecksumGz
         (length filelistsXml) (length filelistsGz))
      (mkMetadataFileInfo otherChecksum otherChecksumGz
         (length otherXml) (length otherGz)) in
  ret {| repomd_xml := repomdXml;
         primary := mkDocument primaryXml primaryGz primaryChecksumGz
                      primaryChecksum (length primaryGz) (length primaryXml);
         filelists := mkDocument filelistsXml filelistsGz filelistsChecksumGz
                        filelistsChecksum (length filelistsGz) (length filelistsXml);
         other := mkDocument otherXml otherGz otherChecksumGz
                    otherChecksum (length otherGz) (length otherXml) |}.

End Generator.

End Repo.

(** ** src/providers/base.ts *)
Module Providers.

Record VersionInfo := mkVersionInfo {
  version : jsstring;
  release : jsstring;
  url : jsstring;
  filename : jsstring
}.

Record RepoConfig := mkRepoConfig {
  name : jsstring;
  displayName : jsstring;
  description : jsstring
}.

(** The [Provider] interface.  [fetchLatestVersion] talks to the network
    only: it returns a descriptor or throws, and has no handle on the KV
    namespace. *)
Record Provider (Net : Type) := mkProvider {
  getName : jsstring;
  getRepoConfig : RepoConfig;
  fetchLatestVersion : Net → (Error + VersionInfo) * Net
}.
Arguments getName {Net}.
Arguments getRepoConfig {Net}.
Arguments fetchLatestVersion {Net}.

End Providers.

(** [Promise.all] over reads that were all started before the first is
    awaited: the results come back in the order of the promises. *)
Fixpoint Promise_all {W A} (promises : list (M W A)) : M W (list A) :=
  match promises with
  | [] => ret []
  | p :: rest =>
      let* r := p in
      let* rs := Promise_all rest in
      ret (r :: rs)
  end.

(** ** The version ledger ([./version-discovery]) *)
Module Versions.

Record VersionInfo := mkVersionInfo {
  version : jsstring;
  release : jsstring;
  url : jsstring;
  filename : jsstring;
  added : jsstring
}.

Record VersionIndex := mkVersionIndex {
  versions : list VersionInfo;
  updated : option jsstring
}.

Section VersionManager.
Context {Net : Type}.
(** [Date.prototype.toISOString] of a time value. *)
Variable toISOString : Z → jsstring.
Variable provider : Providers.Provider Net.

Definition indexKey : jsstring :=
  Providers.getName provider ++ lit ":version-index".

Definition getIndex : M (World VersionIndex Net) VersionIndex :=
  let* data := kv_get indexKey in
  ret (default (mkVersionIndex [] None) data).

Definition saveIndex (index : VersionIndex) : M (World VersionIndex Net) unit :=
  kv_put indexKey index.

Definition fetchLatestVersion : M (World VersionIndex Net) Providers.VersionInfo :=
  λ w, let '(r, n) := Providers.fetchLatestVersion provider (net w) in
       (r, mkWorld (kv w) (time w) (reads w) n).

(** [new Date().toISOString()]. *)
Definition nowISO : M (World VersionIndex Net) jsstring :=
  let* t := Date_now in
  ret (toISOString t).

(** The template [`${v.version}-${v.release}`]. *)
Definition keyOf (version release : jsstring) : jsstring :=
  version ++ lit "-" ++ release.

Definition checkAndUpdate : M (World VersionIndex Net) bool :=
  let* latest := fetchLatestVersion in
  let* index := getIndex in
  let versionKey := keyOf (Providers.version latest) (Providers.release latest) in
  let exists_ :=
    existsb (λ v, bool_decide (keyOf (version v) (release v) = versionKey))
            (versions index) in
  if exists_ then ret false
  else
    let* stamp := nowISO in
    let newVersion :=
      mkVersionInfo (Providers.version latest) (Providers.release latest)
                    (Providers.url latest) (Providers.filename latest) stamp in
    let index := mkVersionIndex (newVersion :: versions index) (updated index) in
    let* stamp' := nowISO in
    let index := mkVersionIndex (versions index) (Some stamp') in
    let* _ := saveIndex index in
    ret true.

Definition getLatest : M (World VersionIndex Net) (option VersionInfo) :=
  let* index := getIndex in
  ret (head (versions index)).

Definition getAllVersions : M (World VersionIndex Net) (list VersionInfo) :=
  let* index := getIndex in
  ret (versions index).

End VersionManager.

End Versions.

(** ** The metadata store ([MetadataManager]) *)
Module Metadata.

(** The argument objects [{version, release}] of [getAllMetadata]. *)
Record VersionRef := mkVersionRef {
  version : jsstring;
  release : jsstring
}.

(** [results.filter(metadata => metadata !== null)]. *)
Fixpoint filter_not_null {A} (results : list (option A)) : list A :=
  match results with
  | [] => []
  | Some metadata :: rest => metadata :: filter_not_null rest
  | None :: rest => filter_not_null rest
  end.

Section MetadataManager.
(** The stored metadata document ([any] in the source). *)
Context {Meta Net : Type}.
Variable provider : Providers.Provider Net.
(** [extractRpmMetadata(rpmUrl, filename)], which fetches and may throw. *)
Variable extractRpmMetadata : jsstring → jsstring → M (World Meta Net) Meta.

Definition getMetadataKey (version release : jsstring) : jsstring :=
  Providers.getName provider ++ lit ":metadata:" ++ version ++ lit "-" ++ release.

Definition hasMetadata (version release : jsstring) : M (World Meta Net) bool :=
  let key := getMetadataKey version release in
  let* data := kv_get key in
  ret (bool_decide (is_Some data)).

Definition getMetadata (version release : jsstring) : M (World Meta Net) (option Meta) :=
  let key := getMetadataKey version release in
  kv_get key.

Definition extractAndStore (version release rpmUrl filename : jsstring)
    : M (World Meta Net) unit :=
  let* metadata := extractRpmMetadata rpmUrl filename in
  let key := getMetadataKey version release in
  kv_put key metadata.

Definition getAllMetadata (versions : list VersionRef) : M (World Meta Net) (list Meta) :=
  let metadataPromises :=
    map (λ v, getMetadata (version v) (release v)) versions in
  let* results := Promise_all metadataPromises in
  ret (filter_not_null results).

Definition deleteMetadata (version release : jsstring) : M (World Meta Net) unit :=
  let key := getMetadataKey version release in
  kv_delete key.

End MetadataManager.

End Metadata.

(** ** Definitions used to state the properties *)

(** The flag mapping in the specification's words: the low four bits [bits]
    of the bitmask select EQ(8), LT(2), GT(4), LE(10) or GE(12). *)
Definition spec_flagOfBits (bits : Z) : option jsstring :=
  if (bits =? 8)%Z then Some (lit "EQ")
  else if (bits =? 2)%Z then Some (lit "LT")
  else if (bits =? 4)%Z then Some (lit "GT")
  else if (bits =? 10)%Z then Some (lit "LE")
  else if (bits =? 12)%Z then Some (lit "GE")
  else None.

(** The flag the specification gives the dependency at index [i]. *)
Definition spec_flagAt (requireFlags : list Z) (i : nat) : option jsstring :=
  match requireFlags !! i with
  | Some n => spec_flagOfBits (n mod 16)
  | None => None
  end.

(** A header whose only requirement has comparison bits EQ and an empty
    version string. *)
Definition unversioned_pkg : @Rpm.RpmPackage unit :=
  {| Rpm.pkg_name := lit "cursor";
     Rpm.pkg_version := lit "1.7.28";
     Rpm.pkg_release := lit "1";
     Rpm.pkg_arch := lit "x86_64";
     Rpm.pkg_summery := lit "editor";
     Rpm.pkg_description := lit "editor";
     Rpm.pkg_vendor := lit "v";
     Rpm.pkg_license := lit "l";
     Rpm.pkg_packager := lit "p";
     Rpm.pkg_os := lit "linux";
     Rpm.pkg_platform := lit "x86_64-linux";
     Rpm.pkg_size := Some 100%Z;
     Rpm.pkg_buildTime := Rpm.mkDate (Some 1700000000000%Z);
     Rpm.pkg_digest := ();
     Rpm.get_RequireName := Some [lit "libfoo"];
     Rpm.get_RequireVersion := Some [emptyString];
     Rpm.get_RequireFlags := Some [8%Z] |}.

(** [s.startsWith(prefix)] and [s.includes(needle)]. *)
Fixpoint startsWith (prefix s : jsstring) : bool :=
  match prefix, s with
  | [], _ => true
  | p :: prefix', c :: s' => (p =? c)%N && startsWith prefix' s'
  | _ :: _, [] => false
  end.

Fixpoint includes (s needle : jsstring) : bool :=
  startsWith needle s
  || match s with
     | [] => false
     | _ :: s' => includes s' needle
     end.

(** The text of an entry of the primary document before its [<time>]
    element, the element itself, and the text after it. *)
Definition entryBefore (pkg : Repo.PackageMetadata) : jsstring :=
  tpl "  <package type='rpm'>" ++ nl
  ++ tpl "    <name>" ++ Repo.escapeXml (Repo.name pkg) ++ tpl "</name>" ++ nl
  ++ tpl "    <arch>" ++ Repo.escapeXml (Repo.arch pkg) ++ tpl "</arch>" ++ nl
  ++ tpl "    <version epoch='0' ver='" ++ Repo.escapeXml (Repo.version pkg)
  ++ tpl "' rel='" ++ Repo.escapeXml (Repo.release pkg) ++ tpl "'/>" ++ nl
  ++ tpl "    <checksum type='" ++ Repo.checksum_type pkg ++ tpl "' pkgid='YES'>"
  ++ Repo.checksum_value pkg ++ tpl "</checksum>" ++ nl
  ++ tpl "    <summary>" ++ Repo.escapeXml (Repo.summary pkg) ++ tpl "</summary>" ++ nl
  ++ tpl "    <description>" ++ Repo.escapeXml (Repo.description pkg)
  ++ tpl "</description>" ++ nl
  ++ tpl "    <packager>" ++ Repo.escapeXml (Repo.packager pkg) ++ tpl "</packager>" ++ nl
  ++ tpl "    <url></url>" ++ nl.

Definition timeElement (file build : jsnum) : jsstring :=
  tpl "    <time file='" ++ numToString file ++ tpl "' build='"
  ++ numToString build ++ tpl "'/>" ++ nl.

Definition entryAfter (pkg : Repo.PackageMetadata) : jsstring :=
  tpl "    <size package='" ++ numToString (Repo.size_package pkg)
  ++ tpl "' installed='" ++ numToString (Repo.size_installed pkg)
  ++ tpl "' archive='0'/>" ++ nl
  ++ tpl "    <location href='" ++ Repo.escapeXml (Repo.filename pkg) ++ tpl "'/>" ++ nl
  ++ tpl "    <format>" ++ nl
  ++ tpl "      <rpm:license>" ++ Repo.escapeXml (Repo.license pkg)
  ++ tpl "</rpm:license>" ++ nl
  ++ tpl "      <rpm:vendor>" ++ Repo.escapeXml (Repo.vendor pkg)
  ++ tpl "</rpm:vendor>" ++ nl
  ++ tpl "      <rpm:buildhost></rpm:buildhost>" ++ nl
  ++ tpl "      <rpm:header-range start='0' end='0'/>" ++ nl
  ++ tpl "      <rpm:provides>" ++ nl
  ++ tpl "        <rpm:entry name='" ++ Repo.escapeXml (Repo.name pkg)
  ++ tpl "' flags='EQ' epoch='0' ver='" ++ Repo.escapeXml (Repo.version pkg)
  ++ tpl "' rel='" ++ Repo.escapeXml (Repo.release pkg) ++ tpl "'/>" ++ nl
  ++ tpl "        <rpm:entry name='" ++ Repo.escapeXml (Repo.name pkg) ++ tpl "("
  ++ Repo.escapeXml (Repo.arch pkg) ++ tpl ")' flags='EQ' epoch='0' ver='"
  ++ Repo.escapeXml (Repo.version pkg) ++ tpl "' rel='"
  ++ Repo.escapeXml (Repo.release pkg) ++ tpl "'/>" ++ nl
  ++ tpl "      </rpm:provides>" ++ nl
  ++ match Repo.dependencies pkg with
     | Some ((_ :: _) as deps) =>
         tpl "      <rpm:requires>" ++ nl
         ++ (deps ≫= Repo.requiresEntry [])
         ++ tpl "      </rpm:requires>" ++ nl
     | _ => []
     end
  ++ tpl "    </format>" ++ nl
  ++ tpl "  </package>" ++ nl.

(** The first two lines of the primary document for [n] packages. *)
Definition primaryHead (n : nat) : jsstring :=
  tpl "<?xml version='1.0' encoding='UTF-8'?>" ++ nl
  ++ tpl "<metadata xmlns='http://linux.duke.edu/metadata/common' xmlns:rpm='http://linux.duke.edu/metadata/rpm' packages='"
  ++ intToString (Z.of_nat n) ++ tpl "'>" ++ nl.

(** The first lines of repomd.xml, up to and including its revision. *)
Definition repomdHead (revision : jsnum) : jsstring :=
  tpl "<?xml version='1.0' encoding='UTF-8'?>" ++ nl
  ++ tpl "<repomd xmlns='http://linux.duke.edu/metadata/repo' xmlns:rpm='http://linux.duke.edu/metadata/rpm'>" ++ nl
  ++ tpl "  <revision>" ++ numToString revision ++ tpl "</revision>" ++ nl.

(** A package whose summary is the one character U+00E9. *)
Definition accented_pkg : Repo.PackageMetadata :=
  {| Repo.name := lit "cursor";
     Repo.version := lit "1.7.28";
     Repo.release := lit "1";
     Repo.arch := lit "x86_64";
     Repo.summary := [233%N];
     Repo.description := lit "editor";
     Repo.packager := lit "p";
     Repo.buildTime := Rpm.mkDate (Some 1700000000000%Z);
     Repo.size_package := Some 100%Z;
     Repo.size_installed := Some 200%Z;
     Repo.checksum_type := lit "sha256";
     Repo.checksum_value := lit "ab";
     Repo.filename := lit "cursor.rpm";
     Repo.license := lit "l";
     Repo.vendor := lit "v";
     Repo.dependencies := None |}.

(** The ledger a world holds for a provider: the list [getIndex] reads. *)
Definition ledger {Net} (provider : Providers.Provider Net)
    (w : World Versions.VersionIndex Net) : list Versions.VersionInfo :=
  Versions.versions
    (default (Versions.mkVersionIndex [] None) (kv w !! Versions.indexKey provider)).

(** The identity key of a ledger entry and of a descriptor. *)
Definition entryKey (v : Versions.VersionInfo) : jsstring :=
  Versions.keyOf (Versions.version v) (Versions.release v).

Definition descriptorKey (d : Providers.VersionInfo) : jsstring :=
  Versions.keyOf (Providers.version d) (Providers.release d).

(** The entry made of descriptor [d] when the clock reads [t]. *)
Definition stamped (toISOString : Z → jsstring) (d : Providers.VersionInfo)
    (t : Z) : Versions.VersionInfo :=
  Versions.mkVersionInfo (Providers.version d) (Providers.release d)
    (Providers.url d) (Providers.filename d) (toISOString t).

(** A provider for examples, in the manner of the mock of the test suite:
    the network is the list of answers the upstream will give, one per
    fetch; an exhausted list answers with an error. *)
Definition scripted : Providers.Provider (list (Error + Providers.VersionInfo)) :=
  {| Providers.getName := lit "cursor";
     Providers.getRepoConfig :=
       Providers.mkRepoConfig (lit "cursor") (lit "Cursor IDE Repository")
         (lit "Cursor IDE RPM packages");
     Providers.fetchLatestVersion := λ answers,
       match answers with
       | answer :: answers' => (answer, answers')
       | [] => (inl (Thrown (lit "HTTP error! status: 503")), [])
       end |}.

(** A stand-in for [toISOString] in examples: the time value in decimal. *)
Definition decimalStamp (t : Z) : jsstring := intToString t.

Definition releaseA : Providers.VersionInfo :=
  Providers.mkVersionInfo (lit "1.0.0") (lit "aaa")
    (lit "https://example.com/a.rpm") (lit "cursor-1.0.0-aaa.el8.x86_64.rpm").

Definition releaseB : Providers.VersionInfo :=
  Providers.mkVersionInfo (lit "1.1.0") (lit "bbb")
    (lit "https://example.com/b.rpm") (lit "cursor-1.1.0-bbb.el8.x86_64.rpm").

Definition entryX : Versions.VersionInfo :=
  Versions.mkVersionInfo (lit "0.9.0") (lit "xxx")
    (lit "https://example.com/x.rpm") (lit "cursor-0.9.0-xxx.el8.x86_64.rpm")
    (lit "2025-01-01T00:00:00.000Z").

(** A world whose clock reads 1000, 1001, ...; its store and the answers of
    the upstream are given. *)
Definition exampleWorld {V} (store : gmap jsstring V)
    (answers : list (Error + Providers.VersionInfo))
    : World V (list (Error + Providers.VersionInfo)) :=
  mkWorld store (λ n, 1000 + Z.of_nat n)%Z 0 answers.

(** The ledger of one earlier release and an upstream that reports release
    A twice. *)
Definition freshWorld : World Versions.VersionIndex _ :=
  exampleWorld
    {[ Versions.indexKey scripted := Versions.mkVersionIndex [entryX] None ]}
    [inr releaseA; inr releaseA].

(** The same upstream, with release A in the ledger already. *)
Definition recordedWorld : World Versions.VersionIndex _ :=
  exampleWorld
    {[ Versions.indexKey scripted :=
         Versions.mkVersionIndex
           [stamped decimalStamp releaseA 900; entryX] (Some (lit "901")) ]}
    [inr releaseA; inr releaseA].

(** The ledger of one earlier release and an upstream that reports A and
    then B. *)
Definition twoReleaseWorld : World Versions.VersionIndex _ :=
  exampleWorld
    {[ Versions.indexKey scripted := Versions.mkVersionIndex [entryX] None ]}
    [inr releaseA; inr releaseB].

(** The ledger of one earlier release and an upstream that is down. *)
Definition failingWorld : World Versions.VersionIndex _ :=
  exampleWorld
    {[ Versions.indexKey scripted := Versions.mkVersionIndex [entryX] None ]}
    [inl (Thrown (lit "HTTP error! status: 503"))].

(** What the store holds for a pair [{version, release}]. *)
Definition stored {Meta Net} (provider : Providers.Provider Net)
    (w : World Meta Net) (v : Metadata.VersionRef) : option Meta :=
  kv w !! Metadata.getMetadataKey provider (Metadata.version v) (Metadata.release v).

(** What [escapeXml] makes of one code unit. *)
Definition escapeUnit (u : N) : jsstring :=
  if (u =? 38)%N then lit "&amp;"
  else if (u =? 60)%N then lit "&lt;"
  else if (u =? 62)%N then lit "&gt;"
  else if (u =? 34)%N then lit "&quot;"
  else if (u =? 39)%N then lit "&apos;"
  else [u].

(** The code units of the five characters [escapeXml] replaces:
    ampersand, less-than, greater-than, double quote, apostrophe. *)
Definition markupUnits : list N := [38; 60; 62; 34; 39]%N.

(** The five flag names. *)
Definition flagNames : list jsstring :=
  [lit "EQ"; lit "LT"; lit "LE"; lit "GT"; lit "GE"].

(** Lower-case hexadecimal digits. *)
Definition isHexDigit (u : N) : Prop :=
  (48 ≤ u ∧ u ≤ 57)%N ∨ (97 ≤ u ∧ u ≤ 102)%N.

(** Text made of ASCII characters only. *)
Definition asciiText (s : jsstring) : Prop := Forall (λ u, (u < 128)%N) s.

Definition asciiDependency (dep : Rpm.Dependency) : Prop :=
  asciiText (Rpm.name dep)
  ∧ from_option asciiText True (Rpm.version dep)
  ∧ from_option asciiText True (Rpm.flags dep).

(** A package all of whose text fields are ASCII. *)
Definition asciiPackage (pkg : Repo.PackageMetadata) : Prop :=
  asciiText (Repo.name pkg) ∧ asciiText (Repo.version pkg)
  ∧ asciiText (Repo.release pkg) ∧ asciiText (Repo.arch pkg)
  ∧ asciiText (Repo.summary pkg) ∧ asciiText (Repo.description pkg)
  ∧ asciiText (Repo.packager pkg) ∧ asciiText (Repo.checksum_type pkg)
  ∧ asciiText (Repo.checksum_value pkg) ∧ asciiText (Repo.filename pkg)
  ∧ asciiText (Repo.license pkg) ∧ asciiText (Repo.vendor pkg)
  ∧ from_option (Forall asciiDependency) True (Repo.dependencies pkg).

(** The entry of a package in the filelists and other documents. *)
Definition auxEntry (pkg : Repo.PackageMetadata) : jsstring :=
  tpl "  <package pkgid='" ++ Repo.checksum_value pkg ++ tpl "' name='"
  ++ Repo.escapeXml (Repo.name pkg) ++ tpl "' arch='"
  ++ Repo.escapeXml (Repo.arch pkg) ++ tpl "'>" ++ nl
  ++ tpl "    <version epoch='0' ver='" ++ Repo.escapeXml (Repo.version pkg)
  ++ tpl "' rel='" ++ Repo.escapeXml (Repo.release pkg) ++ tpl "'/>" ++ nl
  ++ tpl "  </package>" ++ nl.

(** A package with ASCII text only and one requirement. *)
Definition plain_pkg : Repo.PackageMetadata :=
  {| Repo.name := lit "cursor";
     Repo.version := lit "1.7.28";
     Repo.release := lit "1";
     Repo.arch := lit "x86_64";
     Repo.summary := lit "The AI Code Editor";
     Repo.description := lit "Built to make you <extraordinarily> productive";
     Repo.packager := lit "p";
     Repo.buildTime := Rpm.mkDate (Some 1700000000000%Z);
     Repo.size_package := Some 100%Z;
     Repo.size_installed := Some 200%Z;
     Repo.checksum_type := lit "sha256";
     Repo.checksum_value := lit "ab";
     Repo.filename := lit "cursor.rpm";
     Repo.license := lit "l";
     Repo.vendor := lit "v";
     Repo.dependencies :=
       Some [Rpm.mkDependency (lit "rpmlib(CompressedFileNames)")
               (Some (lit "3.0.4-1")) (Some (lit "LE"))] |}.

(** A ledger entry of version [1-2] and release [3], and the descriptor of
    version [1] and release [2-3]. *)
Definition entryHyphen : Versions.VersionInfo :=
  Versions.mkVersionInfo (lit "1-2") (lit "3")
    (lit "https://example.com/h.rpm") (lit "cursor-1-2-3.el8.x86_64.rpm")
    (lit "2025-01-01T00:00:00.000Z").

Definition releaseHyphen : Providers.VersionInfo :=
  Providers.mkVersionInfo (lit "1") (lit "2-3")
    (lit "https://example.com/i.rpm") (lit "cursor-1-2-3.el8.x86_64.rpm").

Definition hyphenWorld : World Versions.VersionIndex _ :=
  exampleWorld
    {[ Versions.indexKey scripted := Versions.mkVersionIndex [entryHyphen] None ]}
    [inr releaseHyphen].

(** An extractor for examples, with the file name for metadata. *)
Definition echoExtract {Net} (rpmUrl filename : jsstring)
    : M (World jsstring Net) jsstring :=
  ret filename.

(** An empty metadata store. *)
Definition emptyStore : World jsstring (list (Error + Providers.VersionInfo)) :=
  exampleWorld ∅ [].

(** [try { body } catch (error) { handler }]: what [body] did to the world
    before it threw stays done. *)
Definition tryCatch {W A} (body : M W A) (handler : Error → M W A) : M W A :=
  λ w, match body w with
       | (inl error, w') => handler error w'
       | (inr a, w') => (inr a, w')
       end.

(** [s.endsWith(suffix)]. *)
Definition endsWith (s suffix : jsstring) : bool :=
  startsWith (reverse suffix) (reverse s).

(** ** The worker ([./index]) *)
Module Worker.

(** The namespace [env.VERSION_INDEX] as the worker uses it for one
    provider.  It holds documents of three kinds, each under keys of its own
    form: the version index, the metadata records and plain text values.
    The three forms have no key in common for one provider, so the
    namespace is kept as three maps, one per kind.  A read sees the last
    write. *)
Record State (Meta Net : Type) := mkState {
  indexes : gmap jsstring Versions.VersionIndex;
  records : gmap jsstring Meta;
  texts : gmap jsstring jsstring;
  clock : nat → Z;
  ticks : nat;
  network : Net
}.
Arguments mkState {Meta Net}.
Arguments indexes {Meta Net}.
Arguments records {Meta Net}.
Arguments texts {Meta Net}.
Arguments clock {Meta Net}.
Arguments ticks {Meta Net}.
Arguments network {Meta Net}.

Definition CACHE_TTL_RPM : Z := 30 * 24 * 60 * 60.
Definition MAX_RPMS_PER_RUN : nat := 1.

(** [new Response(body, { status, headers })], with the headers the worker
    sets. *)
Record Response := mkResponse {
  status : Z;
  statusText : jsstring;
  body : Repo.Data;
  headers : list (jsstring * jsstring)
}.

(** What the worker reads of the response of the origin. *)
Record OriginResponse := mkOriginResponse {
  ok : bool;
  origin_status : Z;
  origin_statusText : jsstring;
  content_length : option jsstring;
  origin_body : Repo.bytes
}.

Section Handlers.
Context {Meta Net : Type}.
Variable toISOString : Z → jsstring.
Variable provider : Providers.Provider Net.
(** [extractRpmMetadata(rpmUrl, filename)] and [fetch(url)]: they talk to
    the network and have no handle on the namespace. *)
Variable extractRpmMetadata : jsstring → jsstring → Net → (Error + Meta) * Net.
Variable fetch : jsstring → Net → (Error + OriginResponse) * Net.

(** A method of [new VersionManager(env.VERSION_INDEX, provider)]. *)
Definition versionManager {A} (method : M (World Versions.VersionIndex Net) A)
    : M (State Meta Net) A :=
  λ s, let '(r, w) := method (mkWorld (indexes s) (clock s) (ticks s) (network s)) in
       (r, mkState (kv w) (records s) (texts s) (time w) (reads w) (net w)).

(** A method of [new MetadataManager(env.VERSION_INDEX, provider)]. *)
Definition metadataManager {A} (method : M (World Meta Net) A)
    : M (State Meta Net) A :=
  λ s, let '(r, w) := method (mkWorld (records s) (clock s) (ticks s) (network s)) in
       (r, mkState (indexes s) (kv w) (texts s) (time w) (reads w) (net w)).

(** The extractor as the metadata manager calls it. *)
Definition extractor (rpmUrl filename : jsstring) : M (World Meta Net) Meta :=
  λ w, let '(r, n) := extractRpmMetadata rpmUrl filename (net w) in
       (r, mkWorld (kv w) (time w) (reads w) n).

(** [env.VERSION_INDEX.put(key, value)] of a text value. *)
Definition VERSION_INDEX_put (key value : jsstring) : M (State Meta Net) unit :=
  λ s, (inr (), mkState (indexes s) (records s) (<[key := value]> (texts s))
                  (clock s) (ticks s) (network s)).

(** [Date.now()]. *)
Definition Date_now : M (State Meta Net) Z :=
  λ s, (inr (clock s (ticks s)),
        mkState (indexes s) (records s) (texts s) (clock s) (S (ticks s)) (network s)).

Definition lastCheckKey : jsstring :=
  Providers.getName provider ++ lit ":last-version-check".

(** The backfill loop [for (const version of versions)], from the count of
    records processed so far to the count at its end. *)
Fixpoint backfill (versions : list Versions.VersionInfo) (processedCount : nat)
    : M (State Meta Net) nat :=
  match versions with
  | [] => ret processedCount
  | version :: versions' =>
      if MAX_RPMS_PER_RUN <=? processedCount then ret processedCount
      else
        let* hasMetadata :=
          metadataManager
            (Metadata.hasMetadata provider (Versions.version version)
               (Versions.release version)) in
        if negb hasMetadata then
          let* _ :=
            metadataManager
              (Metadata.extractAndStore provider extractor
                 (Versions.version version) (Versions.release version)
                 (Versions.url version) (Versions.filename version)) in
          backfill versions' (S processedCount)
        else backfill versions' processedCount
  end.

Definition handleScheduledForProvider : M (State Meta Net) unit :=
  let processedCount := 0 in
  tryCatch
    (let* updated :=
       versionManager (Versions.checkAndUpdate toISOString provider) in
     let* processedCount :=
       if updated then
         let* latest := versionManager (Versions.getLatest provider) in
         match latest with
         | Some latest =>
             let* _ :=
               metadataManager
                 (Metadata.extractAndStore provider extractor
                    (Versions.version latest) (Versions.release latest)
                    (Versions.url latest) (Versions.filename latest)) in
             ret (S processedCount)
         | None => ret processedCount
         end
       else
         let* versions := versionManager (Versions.getAllVersions provider) in
         backfill versions processedCount in
     let* now := Date_now in
     VERSION_INDEX_put lastCheckKey (intToString now))
    (λ error, ret ()).

Definition generateRepoFile (baseUrl providerName displayName : jsstring) : jsstring :=
  lit "[" ++ providerName ++ lit "]" ++ nl
  ++ lit "name=" ++ displayName ++ nl
  ++ lit "baseurl=" ++ baseUrl ++ lit "/" ++ providerName ++ nl
  ++ lit "enabled=1" ++ nl
  ++ lit "gpgcheck=0" ++ nl
  ++ lit "repo_gpgcheck=0" ++ nl
  ++ lit "type=rpm" ++ nl.

(** [fetch(url)] as a step of the worker. *)
Definition fetchOrigin (url : jsstring) : M (State Meta Net) OriginResponse :=
  λ s, let '(r, n) := fetch url (network s) in
       (r, mkState (indexes s) (records s) (texts s) (clock s) (ticks s) n).

Definition handleRpmDownload (filename : jsstring) : M (State Meta Net) Response :=
  let* versions := versionManager (Versions.getAllVersions provider) in
  let versionInfo :=
    find (λ v, bool_decide (Versions.filename v = filename)) versions in
  match versionInfo with
  | None => ret (mkResponse 404 emptyString (Repo.Str (lit "RPM not found in index")) [])
  | Some versionInfo =>
      let* originResponse := fetchOrigin (Versions.url versionInfo) in
      if negb (ok originResponse)
      then ret (mkResponse 502 emptyString (Repo.Str (lit "Failed to fetch RPM from origin")) [])
      else
        let headers :=
          [ (lit "Content-Type", lit "application/x-rpm");
            (lit "Content-Disposition",
             tpl "attachment; filename='" ++ filename ++ tpl "'");
            (lit "Cache-Control", lit "public, max-age=" ++ intToString CACHE_TTL_RPM);
            (lit "CDN-Cache-Control",
             lit "public, max-age=" ++ intToString CACHE_TTL_RPM) ] in
        let contentLength := content_length originResponse in
        let headers :=
          if truthy contentLength
          then headers ++ [(lit "Content-Length", default [] contentLength)]
          else headers in
        ret (mkResponse (origin_status originResponse)
               (origin_statusText originResponse)
               (Repo.Buf (origin_body originResponse)) headers)
  end.

End Handlers.

Section MetadataHandler.
Context {Net : Type}.
Variable digest_SHA256 CompressionStream_gzip : Repo.bytes → Repo.bytes.
Variable provider : Providers.Provider Net.

(** The response for one of the generated files. *)
Definition metadataResponse (content : Repo.Data) (contentType : jsstring) : Response :=
  mkResponse 200 emptyString content
    [ (lit "Content-Type", contentType);
      (lit "Cache-Control", lit "public, max-age=300");
      (lit "CDN-Cache-Control", lit "public, max-age=300") ].

(** [handleMetadata], from the path name of the request. *)
Definition handleMetadata (path : jsstring)
    : M (State Repo.PackageMetadata Net) Response :=
  let* versions := versionManager (Versions.getAllVersions provider) in
  if length versions =? 0
  then ret (mkResponse 503 emptyString (Repo.Str (lit "No versions available")) [])
  else
    let* metadataList :=
      metadataManager
        (Metadata.getAllMetadata provider
           (map (λ v, Metadata.mkVersionRef (Versions.version v) (Versions.release v))
                versions)) in
    if length metadataList =? 0
    then ret (mkResponse 503 emptyString
                (Repo.Str (lit "Metadata not yet extracted. Please try again in a few minutes."))
                [])
    else
      let* repoMetadata :=
        Repo.generateRepoMetadata digest_SHA256 CompressionStream_gzip metadataList in
      if endsWith path (lit "repomd.xml")
      then ret (metadataResponse (Repo.Str (Repo.repomd_xml repoMetadata))
                  (lit "application/xml"))
      else if endsWith path (lit "primary.xml.gz")
      then ret (metadataResponse (Repo.Buf (Repo.gz (Repo.primary repoMetadata)))
                  (lit "application/x-gzip"))
      else if endsWith path (lit "filelists.xml.gz")
      then ret (metadataResponse (Repo.Buf (Repo.gz (Repo.filelists repoMetadata)))
                  (lit "application/x-gzip"))
      else if endsWith path (lit "other.xml.gz")
      then ret (metadataResponse (Repo.Buf (Repo.gz (Repo.other repoMetadata)))
                  (lit "application/x-gzip"))
      else ret (mkResponse 404 emptyString (Repo.Str (lit "Not found")) []).

End MetadataHandler.

End Worker.

(** The ledger the worker's namespace holds for a provider, and the record
    it holds for a ledger entry. *)
Definition workerLedger {Meta Net} (provider : Providers.Provider Net)
    (s : Worker.State Meta Net) : list Versions.VersionInfo :=
  Versions.versions
    (default (Versions.mkVersionIndex [] None)
       (Worker.indexes s !! Versions.indexKey provider)).

Definition recordOf {Meta Net} (provider : Providers.Provider Net)
    (s : Worker.State Meta Net) (v : Versions.VersionInfo) : option Meta :=
  Worker.records s
  !! Metadata.getMetadataKey provider (Versions.version v) (Versions.release v).

(** States of the worker for examples: the ledger and the records are
    given, no text value is stored, the clock reads 1000, 1001, ... *)
Definition schedulerState {Meta} (entries : list Versions.VersionInfo)
    (stored : gmap jsstring Meta) (answers : list (Error + Providers.VersionInfo))
    : Worker.State Meta (list (Error + Providers.VersionInfo)) :=
  Worker.mkState
    {[ Versions.indexKey scripted := Versions.mkVersionIndex entries None ]}
    stored ∅ (λ n, 1000 + Z.of_nat n)%Z 0 answers.

(** Extractors for the worker, with the file name for metadata: one that
    succeeds and one that fails. *)
Definition fileExtract {Net} (rpmUrl filename : jsstring) (n : Net)
    : (Error + jsstring) * Net :=
  (inr filename, n).

Definition downExtract {Net} (rpmUrl filename : jsstring) (n : Net)
    : (Error + jsstring) * Net :=
  (inl (Thrown (lit "Failed to fetch RPM: 404")), n).

(** An origin that answers every request with three bytes. *)
Definition originFetch {Net} (url : jsstring) (n : Net)
    : (Error + Worker.OriginResponse) * Net :=
  (inr (Worker.mkOriginResponse true 200 (lit "OK") (Some (lit "3")) [1; 2; 3]%N), n).

(** Release A as an entry recorded earlier. *)
Definition entryA : Versions.VersionInfo := stamped decimalStamp releaseA 900.

(** ** src/providers/cursor.ts *)
Module Cursor.

Record CursorApiResponse := mkCursorApiResponse {
  downloadUrl : jsstring;
  version : jsstring;
  commitSha : jsstring
}.

(** What the provider reads of the answer of the download API: [ok],
    [status], and [json()], which may throw. *)
Record ApiResponse := mkApiResponse {
  ok : bool;
  status : Z;
  json : Error + CursorApiResponse
}.

(** [s.split(sep)] for a one-character separator: the pieces between the
    separators, at least one. *)
Fixpoint split (sep : N) (s : jsstring) : list jsstring :=
  match s with
  | [] => [[]]
  | u :: s' =>
      if (u =? sep)%N then [] :: split sep s'
      else match split sep s' with
           | piece :: pieces => (u :: piece) :: pieces
           | [] => [[u]]
           end
  end.

(** A piece of an array inside a template literal: [undefined] is printed
    as the word. *)
Definition orUndefined (piece : option jsstring) : jsstring :=
  default (lit "undefined") piece.

Definition isDigit (u : N) : bool := (48 <=? u)%N && (u <=? 57)%N.

(** [\d+] at the start of [s]: what follows the digits, if there is one
    digit at least.  What follows [\d+] in the pattern is a full stop, so
    only the longest run of digits can lead to a match. *)
Fixpoint skipDigits (s : jsstring) : jsstring :=
  match s with
  | u :: s' => if isDigit u then skipDigits s' else s
  | [] => []
  end.

Definition digitsThen (s : jsstring) : option jsstring :=
  match s with
  | u :: s' => if isDigit u then Some (skipDigits s') else None
  | [] => None
  end.

(** [/cursor-(\d+\.\d+\.\d+)\.el8/] matching at the start of [s]. *)
Definition matchHere (s : jsstring) : bool :=
  if startsWith (lit "cursor-") s then
    match digitsThen (drop 7 s) with
    | Some (46%N :: s2) =>
        match digitsThen s2 with
        | Some (46%N :: s3) =>
            match digitsThen s3 with
            | Some s4 => startsWith (lit ".el8") s4
            | None => false
            end
        | _ => false
        end
    | _ => false
    end
  else false.

(** Whether [rpmUrl.match(/cursor-(\d+\.\d+\.\d+)\.el8/)] finds a match. *)
Fixpoint matchesRpm (s : jsstring) : bool :=
  matchHere s
  || match s with
     | [] => false
     | _ :: s' => matchesRpm s'
     end.

Section Provider.
Context {Net : Type}.
(** The two requests of the provider: the download API, and the [HEAD]
    request whose answer is read for its [location] header only. *)
Variable fetchApi : Net → (Error + ApiResponse) * Net.
Variable fetchHead : jsstring → Net → (Error + option jsstring) * Net.

Definition getName : jsstring := lit "cursor".

Definition getRepoConfig : Providers.RepoConfig :=
  Providers.mkRepoConfig (lit "cursor") (lit "Cursor IDE Repository")
    (lit "Cursor IDE RPM packages").

Definition fetchLatestVersion : M Net Providers.VersionInfo :=
  let* response := fetchApi in
  if negb (ok response)
  then λ n, (inl (Thrown (lit "HTTP error! status: " ++ intToString (status response))), n)
  else
    let* data := (λ n, (json response, n)) in
    let versionParts := split 46 (version data) in
    let majorMinor :=
      orUndefined (versionParts !! 0) ++ lit "." ++ orUndefined (versionParts !! 1) in
    let* rpmUrl :=
      fetchHead (lit "https://api2.cursor.sh/updates/download/golden/linux-x64-rpm/cursor/"
                 ++ majorMinor) in
    if negb (truthy rpmUrl)
    then λ n, (inl (Thrown (lit "Failed to get RPM URL from redirect")), n)
    else
      let rpmUrl := default [] rpmUrl in
      if negb (matchesRpm rpmUrl)
      then λ n, (inl (Thrown (lit "Failed to extract version from RPM URL")), n)
      else
        let release := take 10 (commitSha data) in
        ret (Providers.mkVersionInfo (version data) release rpmUrl
               (lit "cursor-" ++ version data ++ lit "-" ++ release
                ++ lit ".el8.x86_64.rpm")).

(** [new CursorProvider()]. *)
Definition CursorProvider : Providers.Provider Net :=
  Providers.mkProvider Net getName getRepoConfig fetchLatestVersion.

End Provider.

End Cursor.

(** An upstream for examples: the API names version 1.7.28, the redirect
    leads to the file of version 1.7.29. *)
Definition skewedApi (n : unit) : (Error + Cursor.ApiResponse) * unit :=
  (inr (Cursor.mkApiResponse true 200
          (inr (Cursor.mkCursorApiResponse (lit "https://downloads.cursor.com/x")
                  (lit "1.7.28") (lit "0123456789abcdef0123")))), n).

Definition skewedHead (url : jsstring) (n : unit) : (Error + option jsstring) * unit :=
  (inr (Some (lit "https://downloads.cursor.com/production/rpm/x86_64/cursor-1.7.29.el8.x86_64.rpm")), n).

(** ** Properties of src/rpm-metadata.ts *)

Lemma flagMap_lookup (k : Z) : Rpm.flagMap !! k = spec_flagOfBits k.
Proof.
  unfold Rpm.flagMap, spec_flagOfBits. cbn [list_to_map foldr uncurry fst snd].
  rewrite !lookup_insert, lookup_empty.
  repeat case_decide; subst; try reflexivity;
    repeat match goal with
           | |- context [(?a =? ?b)%Z] => destruct (Z.eqb_spec a b); try lia
           end; reflexivity.
Qed.

Lemma flagMap_truthy (k : Z) : truthy (Rpm.flagMap !! k) = bool_decide (is_Some (Rpm.flagMap !! k)).
Proof.
  rewrite flagMap_lookup. unfold spec_flagOfBits.
  repeat match goal with
         | |- context [(?a =? ?b)%Z] => destruct (Z.eqb_spec a b)
         end; reflexivity.
Qed.

Lemma dependency_flags (requireVersions : list jsstring) (requireFlags : list Z)
    (i : nat) (name : jsstring) :
  Rpm.flags (Rpm.dependency requireVersions requireFlags i name)
  = spec_flagAt requireFlags i.
Proof.
  unfold Rpm.dependency, spec_flagAt.
  destruct (requireFlags !! i) as [n|]; [|by destruct (truthy _)].
  replace (Z.land n 15) with (n mod 16)%Z
    by (symmetry; apply (Z.land_ones n 4); lia).
  destruct (Z.eqb_spec n 0) as [->|_].
  - by destruct (truthy _).
  - rewrite flagMap_truthy, flagMap_lookup.
    destruct (spec_flagOfBits (n mod 16)) eqn:E; simpl;
      by destruct (truthy (requireVersions !! i)).
Qed.

(** C7: the flag of every dependency is the one the fixed mapping
    8 -> EQ, 2 -> LT, 4 -> GT, 10 -> LE, 12 -> GE gives for the low four bits
    of its bitmask (none for other bit patterns or a missing bitmask); in
    particular bitmask 8 yields EQ, 10 yields LE, 12 yields GE, and bitmask 0
    with an empty version yields a dependency without flag. *)
Theorem C7_flags_from_low_bits :
  (∀ (requireNames requireVersions : list jsstring) (requireFlags : list Z),
      Rpm.flags <$> Rpm.dependencies requireNames requireVersions requireFlags
      = imap (λ i _, spec_flagAt requireFlags i) requireNames)
  ∧ (∀ name version : jsstring,
      Rpm.flags <$> Rpm.dependencies [name] [version] [8%Z] = [Some (lit "EQ")]
      ∧ Rpm.flags <$> Rpm.dependencies [name] [version] [2%Z] = [Some (lit "LT")]
      ∧ Rpm.flags <$> Rpm.dependencies [name] [version] [4%Z] = [Some (lit "GT")]
      ∧ Rpm.flags <$> Rpm.dependencies [name] [version] [10%Z] = [Some (lit "LE")]
      ∧ Rpm.flags <$> Rpm.dependencies [name] [version] [12%Z] = [Some (lit "GE")])
  ∧ (∀ name : jsstring,
      Rpm.dependencies [name] [emptyString] [0%Z] = [Rpm.mkDependency name None None]).
Proof.
  split; [|split].
  - intros names versions flags. unfold Rpm.dependencies.
    rewrite fmap_imap. apply imap_ext. intros i name _. simpl.
    apply dependency_flags.
  - intros name version. unfold Rpm.dependencies. simpl.
    rewrite !dependency_flags. by repeat split.
  - intros name. reflexivity.
Qed.

(** C1, evaluated where it fails: a requirement whose comparison bits say EQ
    while its version string is empty comes out of [extractRpmMetadata] with
    the flag EQ and without a version. *)
Theorem C1_flag_without_version :
  ∀ (checksum rpmUrl filename : jsstring) (packageSize : jsnum),
    match Rpm.extractRpmMetadata (inr unversioned_pkg)
            (inr (checksum, packageSize)) rpmUrl filename with
    | inr metadata =>
        Rpm.md_dependencies metadata
        = [Rpm.mkDependency (lit "libfoo") None (Some (lit "EQ"))]
    | inl _ => False
    end.
Proof. intros. reflexivity. Qed.

(** ** Properties of the repository index generator *)

Lemma fold_left_append {A} (f : jsstring → A → jsstring) (l : list A) (xml : jsstring) :
  (∀ x a, f x a = x ++ f [] a) →
  fold_left f l xml = xml ++ (l ≫= f []).
Proof.
  intros Hf. revert xml. induction l as [|a l IH]; intros xml; simpl.
  - by rewrite app_nil_r.
  - rewrite IH, (Hf xml a). by rewrite <- app_assoc.
Qed.

Lemma requiresEntry_append (xml : jsstring) (dep : Rpm.Dependency) :
  Repo.requiresEntry xml dep = xml ++ Repo.requiresEntry [] dep.
Proof. reflexivity. Qed.

Lemma primaryPackage_entry (timestamp : jsnum) (xml : jsstring)
    (pkg : Repo.PackageMetadata) :
  Repo.primaryPackage timestamp xml pkg
  = xml ++ (entryBefore pkg
            ++ timeElement timestamp (Repo.epochSeconds (Repo.buildTime pkg))
            ++ entryAfter pkg).
Proof.
  unfold Repo.primaryPackage, entryBefore, timeElement, entryAfter.
  destruct (Repo.dependencies pkg) as [[|dep deps]|];
    rewrite ?(fold_left_append _ _ _ requiresEntry_append);
    rewrite <- ?app_assoc; reflexivity.
Qed.

Lemma generatePrimaryXml_entries (packages : list Repo.PackageMetadata)
    (timestamp : jsnum) :
  Repo.generatePrimaryXml packages timestamp
  = primaryHead (length packages)
    ++ (packages ≫= λ pkg,
          entryBefore pkg
          ++ timeElement timestamp (Repo.epochSeconds (Repo.buildTime pkg))
          ++ entryAfter pkg)
    ++ tpl "</metadata>" ++ nl.
Proof.
  unfold Repo.generatePrimaryXml, primaryHead.
  rewrite (fold_left_append (Repo.primaryPackage timestamp)).
  - rewrite <- !app_assoc. do 6 f_equal.
    apply (f_equal (λ l, l ++ tpl "</metadata>" ++ nl)).
    induction packages as [|pkg packages IH]; [done|].
    rewrite !bind_cons, IH. f_equal.
    by rewrite (primaryPackage_entry timestamp [] pkg).
  - intros x a. by rewrite (primaryPackage_entry _ x), (primaryPackage_entry _ []).
Qed.

(** C2: the generator reads neither the wall clock nor the store: run in any
    two worlds on the same list it returns, without failing and without
    changing the world, one and the same bundle (four documents, compressed
    bytes, checksums and sizes); the revision of repomd.xml and the [file]
    time of every entry of the primary document are the build time of the
    first package of the list in whole epoch seconds (0 for the empty
    list). *)
Theorem C2_generator_deterministic :
  ∀ (digest_SHA256 CompressionStream_gzip : Repo.bytes → Repo.bytes)
    (V Net : Type) (w1 w2 : World V Net)
    (packages : list Repo.PackageMetadata),
    let newest : jsnum :=
      match packages with
      | pkg0 :: _ => (λ ms, ms / 1000)%Z <$> Rpm.getTime (Repo.buildTime pkg0)
      | [] => Some 0%Z
      end in
    ∃ bundle : Repo.RepoMetadata,
      Repo.generateRepoMetadata digest_SHA256 CompressionStream_gzip packages w1
      = (inr bundle, w1)
      ∧ Repo.generateRepoMetadata digest_SHA256 CompressionStream_gzip packages w2
        = (inr bundle, w2)
      ∧ (∃ rest, Repo.repomd_xml bundle = repomdHead newest ++ rest)
      ∧ Repo.xml (Repo.primary bundle)
        = primaryHead (length packages)
          ++ (packages ≫= λ pkg,
                entryBefore pkg
                ++ timeElement newest (Repo.epochSeconds (Repo.buildTime pkg))
                ++ entryAfter pkg)
          ++ tpl "</metadata>" ++ nl.
Proof.
  intros digest gzip V Net w1 w2 packages newest.
  eexists. split; [reflexivity|]. split; [reflexivity|]. split.
  - cbn [Repo.repomd_xml]. unfold Repo.generateRepomdXml, Repo.repomdData, repomdHead.
    eexists. rewrite <- !app_assoc. reflexivity.
  - cbn [Repo.primary Repo.xml]. apply generatePrimaryXml_entries.
Qed.

(** C3, evaluated where it fails: for a package whose summary is the single
    character U+00E9 the primary document is declared with an open-size of
    977, the number of UTF-16 code units of its text, while the document
    that is hashed and compressed has 978 bytes; the declared size is the
    length of the compressed bytes. *)
Theorem C3_open_size_counts_code_units :
  ∀ (digest_SHA256 CompressionStream_gzip : Repo.bytes → Repo.bytes)
    (W : Type) (w : W),
    ∃ bundle : Repo.RepoMetadata,
      Repo.generateRepoMetadata digest_SHA256 CompressionStream_gzip
        [accented_pkg] w = (inr bundle, w)
      ∧ Repo.openSize (Repo.primary bundle) = 977
      ∧ length (Repo.TextEncoder_encode (Repo.xml (Repo.primary bundle))) = 978
      ∧ Repo.gz (Repo.primary bundle)
        = CompressionStream_gzip
            (Repo.TextEncoder_encode (Repo.xml (Repo.primary bundle)))
      ∧ Repo.doc_size (Repo.primary bundle) = length (Repo.gz (Repo.primary bundle)).
Proof.
  intros digest gzip W w. eexists. split; [reflexivity|].
  cbn [Repo.primary Repo.openSize Repo.xml Repo.gz Repo.doc_size].
  split; [vm_compute; reflexivity|]. split; [vm_compute; reflexivity|].
  split; reflexivity.
Qed.

(** Text made of ASCII code units is its own encoding. *)
Lemma TextEncoder_encode_ascii (s : jsstring) :
  Forall (λ u, (u < 128)%N) s → Repo.TextEncoder_encode s = s.
Proof.
  induction 1 as [|u s Hu _ IH]; [reflexivity|].
  cbn [Repo.TextEncoder_encode].
  assert (Repo.is_high u = false) as ->.
  { unfold Repo.is_high. apply andb_false_intro1. apply N.leb_gt. lia. }
  assert (Repo.is_low u = false) as ->.
  { unfold Repo.is_low. apply andb_false_intro1. apply N.leb_gt. lia. }
  unfold Repo.utf8_scalar. apply N.ltb_lt in Hu. rewrite Hu. cbn. by rewrite IH.
Qed.

(** What the bundle declares for every list: each open-size is the number of
    code units of the document text, each size the number of compressed
    bytes, and the compressed bytes are those of the encoded text.  The
    open-size is therefore the byte length whenever the text is ASCII. *)
Lemma generateRepoMetadata_sizes
    (digest_SHA256 CompressionStream_gzip : Repo.bytes → Repo.bytes)
    (W : Type) (w : W) (packages : list Repo.PackageMetadata) :
  ∃ bundle : Repo.RepoMetadata,
    Repo.generateRepoMetadata digest_SHA256 CompressionStream_gzip packages w
    = (inr bundle, w)
    ∧ Forall (λ doc,
        Repo.openSize doc = length (Repo.xml doc)
        ∧ Repo.doc_size doc = length (Repo.gz doc)
        ∧ Repo.gz doc = CompressionStream_gzip (Repo.TextEncoder_encode (Repo.xml doc))
        ∧ (Forall (λ u, (u < 128)%N) (Repo.xml doc) →
           Repo.openSize doc = length (Repo.TextEncoder_encode (Repo.xml doc))))
        [Repo.primary bundle; Repo.filelists bundle; Repo.other bundle].
Proof.
  eexists. split; [reflexivity|].
  repeat constructor; cbn [Repo.primary Repo.filelists Repo.other Repo.xml];
    intros Hascii; by rewrite (TextEncoder_encode_ascii _ Hascii).
Qed.

(** C8: for the empty list the three package documents consist of their
    root element alone, declared with packages=0 and holding no [<package]
    at all, and the revision of repomd.xml is 0. *)
Theorem C8_empty_list :
  ∀ (digest_SHA256 CompressionStream_gzip : Repo.bytes → Repo.bytes)
    (W : Type) (w : W),
    ∃ bundle : Repo.RepoMetadata,
      Repo.generateRepoMetadata digest_SHA256 CompressionStream_gzip [] w
      = (inr bundle, w)
      ∧ Repo.xml (Repo.primary bundle)
        = tpl "<?xml version='1.0' encoding='UTF-8'?>" ++ nl
          ++ tpl "<metadata xmlns='http://linux.duke.edu/metadata/common' xmlns:rpm='http://linux.duke.edu/metadata/rpm' packages='0'>" ++ nl
          ++ tpl "</metadata>" ++ nl
      ∧ Repo.xml (Repo.filelists bundle)
        = tpl "<?xml version='1.0' encoding='UTF-8'?>" ++ nl
          ++ tpl "<filelists xmlns='http://linux.duke.edu/metadata/filelists' packages='0'>" ++ nl
          ++ tpl "</filelists>" ++ nl
      ∧ Repo.xml (Repo.other bundle)
        = tpl "<?xml version='1.0' encoding='UTF-8'?>" ++ nl
          ++ tpl "<otherdata xmlns='http://linux.duke.edu/metadata/other' packages='0'>" ++ nl
          ++ tpl "</otherdata>" ++ nl
      ∧ includes (Repo.xml (Repo.primary bundle)) (tpl "<package") = false
      ∧ includes (Repo.xml (Repo.filelists bundle)) (tpl "<package") = false
      ∧ includes (Repo.xml (Repo.other bundle)) (tpl "<package") = false
      ∧ (∃ rest,
          Repo.repomd_xml bundle
          = tpl "<?xml version='1.0' encoding='UTF-8'?>" ++ nl
            ++ tpl "<repomd xmlns='http://linux.duke.edu/metadata/repo' xmlns:rpm='http://linux.duke.edu/metadata/rpm'>" ++ nl
            ++ tpl "  <revision>0</revision>" ++ nl
            ++ rest).
Proof.
  intros digest gzip W w. eexists. split; [reflexivity|].
  cbn [Repo.primary Repo.filelists Repo.other Repo.xml Repo.repomd_xml].
  repeat (split; [vm_compute; reflexivity|]).
  unfold Repo.generateRepomdXml, Repo.repomdData.
  eexists. rewrite <- !app_assoc. reflexivity.
Qed.

(** ** Properties of the version ledger *)

Section VersionFacts.
Context {Net : Type}.
Variable toISOString : Z → jsstring.
Variable provider : Providers.Provider Net.

Implicit Types (w : World Versions.VersionIndex Net) (d : Providers.VersionInfo).

Lemma getAllVersions_ledger w :
  Versions.getAllVersions provider w = (inr (ledger provider w), w).
Proof. reflexivity. Qed.

Lemma getLatest_ledger w :
  Versions.getLatest provider w = (inr (head (ledger provider w)), w).
Proof. reflexivity. Qed.

Lemma ledger_after_put w (index : Versions.VersionIndex) (t : nat → Z)
    (r : nat) (n : Net) :
  ledger provider
    (mkWorld (<[Versions.indexKey provider := index]> (kv w)) t r n)
  = Versions.versions index.
Proof. unfold ledger. cbn [kv]. by rewrite lookup_insert_eq. Qed.

Lemma existsb_key_false (key : jsstring) (l : list Versions.VersionInfo) :
  Forall (λ v, entryKey v ≠ key) l →
  existsb (λ v, bool_decide
                  (Versions.keyOf (Versions.version v) (Versions.release v) = key)) l
  = false.
Proof.
  induction 1 as [|v l Hv _ IH]; [done|].
  cbn [existsb]. rewrite IH, orb_false_r. by apply bool_decide_eq_false.
Qed.

Lemma existsb_key_true (key : jsstring) (l : list Versions.VersionInfo) :
  Exists (λ v, entryKey v = key) l →
  existsb (λ v, bool_decide
                  (Versions.keyOf (Versions.version v) (Versions.release v) = key)) l
  = true.
Proof.
  induction 1 as [v l Hv|v l _ IH]; cbn [existsb].
  - by rewrite (bool_decide_eq_true_2 _ Hv).
  - by rewrite IH, orb_true_r.
Qed.

(** [checkAndUpdate], one case per path through its body. *)
Lemma checkAndUpdate_run w :
  Versions.checkAndUpdate toISOString provider w
  = match Providers.fetchLatestVersion provider (net w) with
    | (inl e, n) => (inl e, mkWorld (kv w) (time w) (reads w) n)
    | (inr d, n) =>
        if existsb (λ v, bool_decide
                           (Versions.keyOf (Versions.version v) (Versions.release v)
                            = descriptorKey d))
             (ledger provider w)
        then (inr false, mkWorld (kv w) (time w) (reads w) n)
        else
          (inr true,
           mkWorld
             (<[Versions.indexKey provider :=
                  Versions.mkVersionIndex
                    (stamped toISOString d (time w (reads w)) :: ledger provider w)
                    (Some (toISOString (time w (S (reads w)))))]> (kv w))
             (time w) (S (S (reads w))) n)
    end.
Proof.
  unfold Versions.checkAndUpdate, bind, Versions.fetchLatestVersion.
  destruct (Providers.fetchLatestVersion provider (net w)) as [[e|d] n];
    [reflexivity|].
  cbn -[existsb]. fold (ledger provider w). fold (descriptorKey d).
  by destruct (existsb _ _).
Qed.

(** The provider throws: the call throws the same error and only the
    network has moved. *)
Lemma checkAndUpdate_throws w (e : Error) (n : Net) :
  Providers.fetchLatestVersion provider (net w) = (inl e, n) →
  Versions.checkAndUpdate toISOString provider w
  = (inl e, mkWorld (kv w) (time w) (reads w) n).
Proof.
  intros Hfetch. by rewrite checkAndUpdate_run, Hfetch.
Qed.

(** The reported release is in the ledger: [false], nothing written. *)
Lemma checkAndUpdate_known w d (n : Net) :
  Providers.fetchLatestVersion provider (net w) = (inr d, n) →
  Exists (λ v, entryKey v = descriptorKey d) (ledger provider w) →
  Versions.checkAndUpdate toISOString provider w
  = (inr false, mkWorld (kv w) (time w) (reads w) n).
Proof.
  intros Hfetch Hin.
  by rewrite checkAndUpdate_run, Hfetch, (existsb_key_true _ _ Hin).
Qed.

(** The reported release is not in the ledger: [true], and one write of the
    ledger with the stamped descriptor in front. *)
Lemma checkAndUpdate_new w d (n : Net) :
  Providers.fetchLatestVersion provider (net w) = (inr d, n) →
  Forall (λ v, entryKey v ≠ descriptorKey d) (ledger provider w) →
  Versions.checkAndUpdate toISOString provider w
  = (inr true,
     mkWorld
       (<[Versions.indexKey provider :=
            Versions.mkVersionIndex
              (stamped toISOString d (time w (reads w)) :: ledger provider w)
              (Some (toISOString (time w (S (reads w)))))]> (kv w))
       (time w) (S (S (reads w))) n).
Proof.
  intros Hfetch Hnew.
  by rewrite checkAndUpdate_run, Hfetch, (existsb_key_false _ _ Hnew).
Qed.

(** C6: when the provider's fetch throws, check-and-record throws the same
    error and writes nothing: the store, and so the ledger, is as it was
    before the call. *)
Theorem C6_provider_failure_leaves_ledger w (e : Error) (n : Net) :
  Providers.fetchLatestVersion provider (net w) = (inl e, n) →
  ∃ w', Versions.checkAndUpdate toISOString provider w = (inl e, w')
        ∧ kv w' = kv w
        ∧ Versions.getAllVersions provider w' = (inr (ledger provider w), w').
Proof.
  intros Hfetch. eexists. split; [by apply checkAndUpdate_throws|].
  split; reflexivity.
Qed.

(** C4, amended: if the ledger does not yet hold the identity key of the
    descriptor the provider reports on two successive calls, the first call
    returns [true] and puts one stamped entry in front of the ledger, the
    second returns [false] and leaves the store unchanged, so the ledger is
    one entry longer after the pair. *)
Theorem C4_record_twice w d1 (n1 : Net) d2 (n2 : Net) :
  Providers.fetchLatestVersion provider (net w) = (inr d1, n1) →
  Providers.fetchLatestVersion provider n1 = (inr d2, n2) →
  Providers.version d2 = Providers.version d1 →
  Providers.release d2 = Providers.release d1 →
  Forall (λ v, entryKey v ≠ descriptorKey d1) (ledger provider w) →
  ∃ w1 w2,
    Versions.checkAndUpdate toISOString provider w = (inr true, w1)
    ∧ ledger provider w1
      = stamped toISOString d1 (time w (reads w)) :: ledger provider w
    ∧ Versions.checkAndUpdate toISOString provider w1 = (inr false, w2)
    ∧ kv w2 = kv w1
    ∧ length (ledger provider w2) = S (length (ledger provider w)).
Proof.
  intros Hfetch1 Hfetch2 Hversion Hrelease Hnew.
  eexists _, _. split; [by apply checkAndUpdate_new|].
  split; [by rewrite ledger_after_put|].
  split.
  - apply checkAndUpdate_known with (d := d2); [exact Hfetch2|].
    rewrite ledger_after_put. cbn [Versions.versions].
    apply Exists_cons_hd. unfold entryKey, descriptorKey, stamped. cbn.
    by rewrite Hversion, Hrelease.
  - split; [reflexivity|].
    unfold ledger at 1. cbn [kv]. by rewrite lookup_insert_eq.
Qed.

(** C5, amended: when A and then B are recorded, neither being in the
    ledger before and their identity keys differing, both calls return
    [true], [getAllVersions] returns B, A and then the earlier entries in
    their earlier order (exactly [B; A] from an empty ledger), and
    [getLatest] returns B; in every world [getLatest] returns [null] exactly
    when [getAllVersions] returns the empty list. *)
Theorem C5_newest_first :
  (∀ w (a : Providers.VersionInfo) (n1 : Net) (b : Providers.VersionInfo)
     (n2 : Net),
      Providers.fetchLatestVersion provider (net w) = (inr a, n1) →
      Providers.fetchLatestVersion provider n1 = (inr b, n2) →
      Forall (λ v, entryKey v ≠ descriptorKey a) (ledger provider w) →
      Forall (λ v, entryKey v ≠ descriptorKey b) (ledger provider w) →
      descriptorKey a ≠ descriptorKey b →
      ∃ w1 w2,
        let A := stamped toISOString a (time w (reads w)) in
        let B := stamped toISOString b (time w (2 + reads w)) in
        Versions.checkAndUpdate toISOString provider w = (inr true, w1)
        ∧ Versions.checkAndUpdate toISOString provider w1 = (inr true, w2)
        ∧ Versions.getAllVersions provider w2
          = (inr (B :: A :: ledger provider w), w2)
        ∧ (ledger provider w = [] →
           Versions.getAllVersions provider w2 = (inr [B; A], w2))
        ∧ Versions.getLatest provider w2 = (inr (Some B), w2))
  ∧ (∀ w, (Versions.getLatest provider w).1 = inr None
          ↔ (Versions.getAllVersions provider w).1 = inr []).
Proof.
  split.
  - intros w a n1 b n2 Hfetch1 Hfetch2 Hnew_a Hnew_b Hdistinct.
    eexists _, _. cbn zeta.
    split; [by apply checkAndUpdate_new|].
    assert (Hb :
      Forall (λ v, entryKey v ≠ descriptorKey b)
        (stamped toISOString a (time w (reads w)) :: ledger provider w)).
    { apply Forall_cons. split; [|exact Hnew_b]. exact Hdistinct. }
    split.
    + rewrite (checkAndUpdate_new _ b n2); cbn [net];
        rewrite ?ledger_after_put; [reflexivity|exact Hfetch2|exact Hb].
    + rewrite !getAllVersions_ledger, getLatest_ledger, !ledger_after_put.
      cbn [Versions.versions kv time reads head].
      split; [reflexivity|]. split; [|reflexivity].
      by intros ->.
  - intros w. rewrite getAllVersions_ledger, getLatest_ledger. cbn [fst].
    destruct (ledger provider w); split; intros H; by inversion H.
Qed.

End VersionFacts.

Lemma C6_provider_failure_witness :
  Providers.fetchLatestVersion scripted (net failingWorld)
  = (inl (Thrown (lit "HTTP error! status: 503")), [])
  ∧ ∃ w', Versions.checkAndUpdate decimalStamp scripted failingWorld
          = (inl (Thrown (lit "HTTP error! status: 503")), w')
          ∧ kv w' = kv failingWorld
          ∧ Versions.getAllVersions scripted w'
            = (inr (ledger scripted failingWorld), w').
Proof.
  split; [reflexivity|].
  apply (C6_provider_failure_leaves_ledger decimalStamp scripted failingWorld
           (Thrown (lit "HTTP error! status: 503")) []).
  reflexivity.
Defined.

Lemma C4_record_twice_witness :
  Forall (λ v, entryKey v ≠ descriptorKey releaseA) (ledger scripted freshWorld)
  ∧ ∃ w1 w2,
      Versions.checkAndUpdate decimalStamp scripted freshWorld = (inr true, w1)
      ∧ ledger scripted w1
        = stamped decimalStamp releaseA 1000 :: ledger scripted freshWorld
      ∧ Versions.checkAndUpdate decimalStamp scripted w1 = (inr false, w2)
      ∧ kv w2 = kv w1
      ∧ length (ledger scripted w2) = S (length (ledger scripted freshWorld)).
Proof.
  assert (Hnew : Forall (λ v, entryKey v ≠ descriptorKey releaseA)
                   (ledger scripted freshWorld)).
  { repeat constructor. intros H. vm_compute in H. discriminate H. }
  split; [exact Hnew|].
  apply (C4_record_twice decimalStamp scripted freshWorld
           releaseA [inr releaseA] releaseA []); try reflexivity.
  exact Hnew.
Defined.

(** C4 as stated fails where the release is in the ledger already: the first
    of the two calls returns [false] and the ledger is no longer after the
    pair. *)
Lemma C4_already_recorded :
  Providers.fetchLatestVersion scripted (net recordedWorld)
  = (inr releaseA, [inr releaseA])
  ∧ Providers.fetchLatestVersion scripted [inr releaseA] = (inr releaseA, [])
  ∧ ∃ w1 w2,
      Versions.checkAndUpdate decimalStamp scripted recordedWorld = (inr false, w1)
      ∧ Versions.checkAndUpdate decimalStamp scripted w1 = (inr false, w2)
      ∧ length (ledger scripted w2) = length (ledger scripted recordedWorld).
Proof.
  split; [reflexivity|]. split; [reflexivity|].
  eexists _, _. split; [vm_compute; reflexivity|].
  split; vm_compute; reflexivity.
Qed.

Lemma C5_newest_first_witness :
  Forall (λ v, entryKey v ≠ descriptorKey releaseA) (ledger scripted twoReleaseWorld)
  ∧ Forall (λ v, entryKey v ≠ descriptorKey releaseB) (ledger scripted twoReleaseWorld)
  ∧ descriptorKey releaseA ≠ descriptorKey releaseB
  ∧ ∃ w1 w2,
      Versions.checkAndUpdate decimalStamp scripted twoReleaseWorld = (inr true, w1)
      ∧ Versions.checkAndUpdate decimalStamp scripted w1 = (inr true, w2)
      ∧ Versions.getAllVersions scripted w2
        = (inr [stamped decimalStamp releaseB 1002;
                stamped decimalStamp releaseA 1000; entryX], w2)
      ∧ Versions.getLatest scripted w2
        = (inr (Some (stamped decimalStamp releaseB 1002)), w2).
Proof.
  assert (Ha : Forall (λ v, entryKey v ≠ descriptorKey releaseA)
                 (ledger scripted twoReleaseWorld)).
  { repeat constructor. intros H. vm_compute in H. discriminate H. }
  assert (Hb : Forall (λ v, entryKey v ≠ descriptorKey releaseB)
                 (ledger scripted twoReleaseWorld)).
  { repeat constructor. intros H. vm_compute in H. discriminate H. }
  assert (Hab : descriptorKey releaseA ≠ descriptorKey releaseB).
  { intros H. vm_compute in H. discriminate H. }
  split; [exact Ha|]. split; [exact Hb|]. split; [exact Hab|].
  destruct (proj1 (C5_newest_first decimalStamp scripted) twoReleaseWorld
              releaseA [inr releaseB] releaseB [] eq_refl eq_refl Ha Hb Hab)
    as (w1 & w2 & H1 & H2 & Hall & _ & Hlatest).
  exists w1, w2. repeat split; assumption.
Defined.

(** C5 as stated fails for a ledger that is not empty: after A and B are
    recorded, [getAllVersions] returns three entries, B and A followed by
    the earlier one, not the sequence [B; A]. *)
Lemma C5_earlier_entries_follow :
  ∃ w1 w2,
    Versions.checkAndUpdate decimalStamp scripted twoReleaseWorld = (inr true, w1)
    ∧ Versions.checkAndUpdate decimalStamp scripted w1 = (inr true, w2)
    ∧ (Versions.getAllVersions scripted w2).1
      = inr [stamped decimalStamp releaseB 1002;
             stamped decimalStamp releaseA 1000; entryX]
    ∧ (Versions.getAllVersions scripted w2).1
      ≠ inr [stamped decimalStamp releaseB 1002;
             stamped decimalStamp releaseA 1000].
Proof.
  eexists _, _. split; [vm_compute; reflexivity|].
  split; [vm_compute; reflexivity|].
  split; [vm_compute; reflexivity|].
  intros H. vm_compute in H. discriminate H.
Qed.

(** ** Properties of the metadata store *)

Section MetadataFacts.
Context {Meta Net : Type}.
Variable provider : Providers.Provider Net.

Implicit Types (w : World Meta Net) (versions : list Metadata.VersionRef).

Lemma Promise_all_reads w versions :
  Promise_all
    (map (λ v, Metadata.getMetadata provider (Metadata.version v) (Metadata.release v))
         versions) w
  = (inr (map (stored provider w) versions), w).
Proof.
  induction versions as [|v versions IH]; [reflexivity|].
  cbn [map Promise_all]. unfold bind at 1.
  unfold Metadata.getMetadata at 1, kv_get at 1.
  unfold bind at 1. by rewrite IH.
Qed.

Lemma filter_not_null_map {A} (f : A → option Meta) (l : list A) :
  Metadata.filter_not_null (map f l) = omap f l.
Proof.
  induction l as [|a l IH]; [reflexivity|].
  cbn. rewrite IH. by destruct (f a).
Qed.

(** The bulk read returns, in input order, what the store holds for the
    pairs that have an entry, and leaves the world as it was. *)
Lemma getAllMetadata_run w versions :
  Metadata.getAllMetadata provider versions w = (inr (omap (stored provider w) versions), w).
Proof.
  unfold Metadata.getAllMetadata, bind. rewrite Promise_all_reads.
  unfold ret. by rewrite filter_not_null_map.
Qed.

(** C9: the bulk read never throws and returns exactly the stored records of
    the pairs that have one: a record is returned if and only if it is
    stored under the key of some pair of the input, and as many records are
    returned as pairs have an entry; pairs without entry are left out. *)
Theorem C9_bulk_read_drops_missing w versions :
  ∃ result : list Meta,
    Metadata.getAllMetadata provider versions w = (inr result, w)
    ∧ (∀ m, m ∈ result ↔
            ∃ v, v ∈ versions
                 ∧ kv w !! Metadata.getMetadataKey provider
                             (Metadata.version v) (Metadata.release v) = Some m)
    ∧ length result
      = length (filter (λ v, is_Some
                          (kv w !! Metadata.getMetadataKey provider
                                     (Metadata.version v) (Metadata.release v)))
                  versions).
Proof.
  eexists. split; [apply getAllMetadata_run|]. split.
  - intros m. rewrite list_elem_of_omap. reflexivity.
  - induction versions as [|v versions IH]; [reflexivity|].
    cbn [omap list_omap]. rewrite filter_cons. fold (stored provider w v).
    destruct (stored provider w v) as [m|] eqn:E.
    + rewrite decide_True by eauto. cbn. by rewrite IH.
    + rewrite decide_False by (by intros [? ?]). exact IH.
Qed.

(** C10: the bulk read keeps the order of its input: the result for a
    concatenation is the result for the first part followed by the result
    for the second, the result for one pair is its record or nothing, and
    the first record returned is the one of the first pair of the input that
    has an entry. *)
Theorem C10_bulk_read_keeps_order w :
  (∀ versions1 versions2,
      ∃ result1 result2 : list Meta,
        Metadata.getAllMetadata provider versions1 w = (inr result1, w)
        ∧ Metadata.getAllMetadata provider versions2 w = (inr result2, w)
        ∧ Metadata.getAllMetadata provider (versions1 ++ versions2) w
          = (inr (result1 ++ result2), w))
  ∧ (∀ v, Metadata.getAllMetadata provider [v] w
          = (inr (option_list
                    (kv w !! Metadata.getMetadataKey provider
                               (Metadata.version v) (Metadata.release v))), w))
  ∧ (∀ versions,
      ∃ result : list Meta,
        Metadata.getAllMetadata provider versions w = (inr result, w)
        ∧ head result
          = list_find
              (λ v, is_Some
                      (kv w !! Metadata.getMetadataKey provider
                                 (Metadata.version v) (Metadata.release v)))
              versions
            ≫= λ iv, kv w !! Metadata.getMetadataKey provider
                               (Metadata.version iv.2) (Metadata.release iv.2)).
Proof.
  split; [|split].
  - intros versions1 versions2. eexists _, _.
    rewrite !getAllMetadata_run, omap_app. by repeat split.
  - intros v. rewrite getAllMetadata_run. cbn [omap list_omap].
    fold (stored provider w v). by destruct (stored provider w v).
  - intros versions. eexists. split; [apply getAllMetadata_run|].
    induction versions as [|v versions IH]; [reflexivity|].
    cbn [omap list_omap list_find]. fold (stored provider w v).
    destruct (stored provider w v) as [m|] eqn:E.
    + rewrite decide_True by eauto. cbn. by rewrite <- E.
    + rewrite decide_False by (by intros [? ?]).
      rewrite IH. by destruct (list_find _ versions) as [[i v']|].
Qed.

End MetadataFacts.

(** ** Further properties of src/rpm-metadata.ts *)

(** X1: the extractor returns one dependency per required name, in the
    order of the names and carrying them, whatever the lengths of the
    version and flag arrays. *)
Theorem X1_dependencies_follow_names
    (requireNames requireVersions : list jsstring) (requireFlags : list Z) :
  Rpm.name <$> Rpm.dependencies requireNames requireVersions requireFlags
  = requireNames
  ∧ length (Rpm.dependencies requireNames requireVersions requireFlags)
    = length requireNames.
Proof.
  unfold Rpm.dependencies. split; [|apply length_imap].
  rewrite fmap_imap.
  rewrite (imap_ext _ (const id)).
  - by rewrite imap_const, list_fmap_id.
  - intros i name _. cbn.
    unfold Rpm.dependency.
    destruct (requireFlags !! i) as [n|].
    + destruct (n =? 0)%Z; [|destruct (truthy (Rpm.flagMap !! Z.land n 15))];
        by destruct (truthy (requireVersions !! i)).
    + by destruct (truthy (requireVersions !! i)).
Qed.

(** X2: a dependency carries a version exactly when the version string
    paired with its name exists and is not empty, and then it is that
    string; comparison bits have no part in it. *)
Theorem X2_version_iff_nonempty
    (requireNames requireVersions : list jsstring) (requireFlags : list Z) :
  Rpm.version <$> Rpm.dependencies requireNames requireVersions requireFlags
  = imap (λ i _, match requireVersions !! i with
                 | Some (u :: v) => Some (u :: v)
                 | _ => None
                 end) requireNames.
Proof.
  unfold Rpm.dependencies. rewrite fmap_imap. apply imap_ext.
  intros i name _. cbn. unfold Rpm.dependency.
  destruct (requireFlags !! i) as [n|].
  - destruct (n =? 0)%Z; [|destruct (truthy (Rpm.flagMap !! Z.land n 15))];
      by destruct (requireVersions !! i) as [[|u v]|].
  - by destruct (requireVersions !! i) as [[|u v]|].
Qed.

(** X3: whatever the bitmasks, a flag that is attached is one of EQ, LT,
    LE, GT, GE. *)
Theorem X3_flags_are_comparison_names
    (requireNames requireVersions : list jsstring) (requireFlags : list Z) :
  Forall (λ dep, match Rpm.flags dep with
                 | Some flag => flag ∈ flagNames
                 | None => True
                 end)
    (Rpm.dependencies requireNames requireVersions requireFlags).
Proof.
  unfold Rpm.dependencies. apply Forall_forall. intros dep Hdep.
  apply list_elem_of_lookup in Hdep as [i Hi].
  rewrite list_lookup_imap in Hi.
  destruct (requireNames !! i) as [name|]; [|discriminate].
  cbn in Hi. injection Hi as <-. rewrite dependency_flags.
  unfold spec_flagAt. destruct (requireFlags !! i) as [n|]; [|done].
  unfold spec_flagOfBits, flagNames.
  repeat match goal with
         | |- context [(?a =? ?b)%Z] => destruct (Z.eqb_spec a b)
         end; set_solver.
Qed.

(** ** Further properties of the repository index generator *)

Lemma list_bind_bind {A B C} (f : A → list B) (g : B → list C) (l : list A) :
  (l ≫= f) ≫= g = l ≫= λ x, f x ≫= g.
Proof.
  induction l as [|x l IH]; [reflexivity|].
  by rewrite !bind_cons, bind_app, IH.
Qed.

(** The five replacements of [escapeXml], done one after the other on the
    whole text, amount to one pass that replaces each unit by itself or by
    its entity: no replacement touches the output of an earlier one. *)
Lemma escapeXml_units (s : jsstring) : Repo.escapeXml s = s ≫= escapeUnit.
Proof.
  unfold Repo.escapeXml. destruct s as [|u0 s0]; [reflexivity|].
  cbn [truthy negb]. generalize (u0 :: s0). clear. intros s.
  unfold Repo.replace. rewrite !list_bind_bind.
  apply list_bind_ext; [|reflexivity]. intros u. unfold escapeUnit.
  destruct (N.eqb_spec u 38) as [E|_]; [by subst u|].
  destruct (N.eqb_spec u 60) as [E|H60]; [by subst u|].
  destruct (N.eqb_spec u 62) as [E|H62]; [by subst u|].
  destruct (N.eqb_spec u 34) as [E|H34]; [by subst u|].
  destruct (N.eqb_spec u 39) as [E|H39]; [by subst u|].
  apply N.eqb_neq in H60, H62, H34, H39.
  rewrite !bind_singleton, H60, !bind_singleton, H62, !bind_singleton, H34,
    !bind_singleton. by rewrite H39.
Qed.

(** X4: escaped text holds no less-than, greater-than, double quote or
    apostrophe, so it cannot close the element or attribute value it is
    put in. *)
Theorem X4_escapeXml_no_markup (s : jsstring) :
  Forall (λ u, u ∉ [60; 62; 34; 39]%N) (Repo.escapeXml s).
Proof.
  rewrite escapeXml_units. apply Forall_bind, Forall_forall. intros u _.
  unfold compose, escapeUnit.
  destruct (N.eqb_spec u 38); [by apply (bool_decide_unpack _)|].
  destruct (N.eqb_spec u 60); [by apply (bool_decide_unpack _)|].
  destruct (N.eqb_spec u 62); [by apply (bool_decide_unpack _)|].
  destruct (N.eqb_spec u 34); [by apply (bool_decide_unpack _)|].
  destruct (N.eqb_spec u 39); [by apply (bool_decide_unpack _)|].
  apply Forall_singleton. rewrite !not_elem_of_cons. repeat split; try done.
  apply not_elem_of_nil.
Qed.

(** X5: escaping goes through concatenation, so a text can be escaped piece
    by piece. *)
Theorem X5_escapeXml_app (s t : jsstring) :
  Repo.escapeXml (s ++ t) = Repo.escapeXml s ++ Repo.escapeXml t.
Proof. by rewrite !escapeXml_units, bind_app. Qed.

Lemma escapeUnit_cancel (u v : N) (s t : jsstring) :
  escapeUnit u ++ s = escapeUnit v ++ t → u = v ∧ s = t.
Proof.
  unfold escapeUnit.
  destruct (N.eqb_spec u 38) as [->|?]; [|
  destruct (N.eqb_spec u 60) as [->|?]; [|
  destruct (N.eqb_spec u 62) as [->|?]; [|
  destruct (N.eqb_spec u 34) as [->|?]; [|
  destruct (N.eqb_spec u 39) as [->|?]]]]];
  (destruct (N.eqb_spec v 38) as [->|?]; [|
   destruct (N.eqb_spec v 60) as [->|?]; [|
   destruct (N.eqb_spec v 62) as [->|?]; [|
   destruct (N.eqb_spec v 34) as [->|?]; [|
   destruct (N.eqb_spec v 39) as [->|?]]]]]);
  cbn; intros H; simplify_eq; done.
Qed.

(** X6: escaping loses nothing: different texts have different escaped
    forms (the text [<] and the text [&lt;], for one). *)
Theorem X6_escapeXml_injective (s t : jsstring) :
  s ≠ t → Repo.escapeXml s ≠ Repo.escapeXml t.
Proof.
  intros Hne Heq. apply Hne. clear Hne. revert Heq.
  rewrite !escapeXml_units. revert t.
  induction s as [|u s IH]; intros [|v t]; rewrite ?bind_cons; cbn.
  - done.
  - intros H. exfalso. unfold escapeUnit in H.
    repeat match type of H with
           | context [(?a =? ?b)%N] => destruct (a =? b)%N
           end; discriminate H.
  - intros H. exfalso. unfold escapeUnit in H.
    repeat match type of H with
           | context [(?a =? ?b)%N] => destruct (a =? b)%N
           end; discriminate H.
  - intros H. apply escapeUnit_cancel in H as [-> H]. f_equal. by apply IH.
Qed.

Lemma X6_escapeXml_injective_witness :
  lit "<" ≠ lit "&lt;" ∧ Repo.escapeXml (lit "<") ≠ Repo.escapeXml (lit "&lt;").
Proof.
  assert (H : lit "<" ≠ lit "&lt;") by discriminate.
  split; [exact H|]. exact (X6_escapeXml_injective _ _ H).
Defined.

(** X7: text without any of the five characters is left as it is. *)
Theorem X7_escapeXml_plain (s : jsstring) :
  Forall (λ u, u ∉ markupUnits) s → Repo.escapeXml s = s.
Proof.
  rewrite escapeXml_units. induction 1 as [|u s Hu _ IH]; [reflexivity|].
  rewrite bind_cons, IH. unfold escapeUnit, markupUnits in *.
  destruct (N.eqb_spec u 38); [set_solver|].
  destruct (N.eqb_spec u 60); [set_solver|].
  destruct (N.eqb_spec u 62); [set_solver|].
  destruct (N.eqb_spec u 34); [set_solver|].
  destruct (N.eqb_spec u 39); [set_solver|].
  reflexivity.
Qed.

Lemma X7_escapeXml_plain_witness :
  Forall (λ u, u ∉ markupUnits) (lit "cursor-1.7.28.el8.x86_64.rpm")
  ∧ Repo.escapeXml (lit "cursor-1.7.28.el8.x86_64.rpm")
    = lit "cursor-1.7.28.el8.x86_64.rpm".
Proof.
  assert (H : Forall (λ u, u ∉ markupUnits) (lit "cursor-1.7.28.el8.x86_64.rpm"))
    by (by apply (bool_decide_unpack _)).
  split; [exact H|]. exact (X7_escapeXml_plain _ H).
Defined.

Lemma hexDigit_isHexDigit (d : N) : (d < 16)%N → isHexDigit (Repo.hexDigit d).
Proof.
  intros Hd. unfold Repo.hexDigit, isHexDigit.
  destruct (N.ltb_spec d 10); lia.
Qed.

(** X8: a checksum is printed as two lower-case hexadecimal digits per byte
    of the digest, so 64 digits for the 32 bytes of SHA-256. *)
Theorem X8_checksum_is_hex (digest_SHA256 : Repo.bytes → Repo.bytes)
    (data : Repo.Data) (W : Type) (w : W) :
  Forall (λ b, (b < 256)%N) (digest_SHA256 (Repo.buffer_of data)) →
  ∃ checksum : jsstring,
    Repo.calculateSha256 digest_SHA256 data w = (inr checksum, w)
    ∧ length checksum = 2 * length (digest_SHA256 (Repo.buffer_of data))
    ∧ Forall isHexDigit checksum.
Proof.
  intros Hbytes. eexists. split; [reflexivity|].
  induction Hbytes as [|b hash Hb _ [IHlen IHhex]]; [by split|].
  rewrite bind_cons. split.
  - cbn [length app Repo.hex2]. rewrite IHlen. cbn. lia.
  - apply Forall_app. split; [|exact IHhex].
    unfold Repo.hex2. apply Forall_cons. split; [|apply Forall_singleton].
    + apply hexDigit_isHexDigit, N.Div0.div_lt_upper_bound. lia.
    + apply hexDigit_isHexDigit, N.mod_lt. lia.
Qed.

Lemma X8_checksum_is_hex_witness :
  let digest : Repo.bytes → Repo.bytes := λ buffer, [0; 171; 255; N.of_nat (length buffer)]%N in
  Forall (λ b, (b < 256)%N) (digest (Repo.buffer_of (Repo.Str (lit "abc"))))
  ∧ ∃ checksum : jsstring,
      Repo.calculateSha256 digest (Repo.Str (lit "abc")) () = (inr checksum, ())
      ∧ length checksum = 2 * length (digest (Repo.buffer_of (Repo.Str (lit "abc"))))
      ∧ Forall isHexDigit checksum.
Proof.
  intros digest.
  assert (H : Forall (λ b, (b < 256)%N) (digest (Repo.buffer_of (Repo.Str (lit "abc")))))
    by (by apply (bool_decide_unpack _)).
  split; [exact H|]. exact (X8_checksum_is_hex digest _ unit () H).
Defined.

Lemma auxPackage_entry (xml : jsstring) (pkg : Repo.PackageMetadata) :
  Repo.auxPackage xml pkg = xml ++ auxEntry pkg.
Proof.
  unfold Repo.auxPackage, auxEntry. rewrite <- !app_assoc. reflexivity.
Qed.

Lemma fold_auxPackage (packages : list Repo.PackageMetadata) (xml : jsstring) :
  fold_left Repo.auxPackage packages xml = xml ++ (packages ≫= auxEntry).
Proof.
  revert xml. induction packages as [|pkg packages IH]; intros xml; cbn [fold_left].
  - by rewrite app_nil_r.
  - by rewrite IH, auxPackage_entry, bind_cons, <- app_assoc.
Qed.

(** X9: the filelists and other documents are a root element that declares
    the number of packages and holds one entry per package of the list, in
    the order of the list; both documents hold the same entries. *)
Theorem X9_auxiliary_documents (packages : list Repo.PackageMetadata) :
  Repo.generateFilelistsXml packages
  = tpl "<?xml version='1.0' encoding='UTF-8'?>" ++ nl
    ++ tpl "<filelists xmlns='http://linux.duke.edu/metadata/filelists' packages='"
    ++ intToString (Z.of_nat (length packages)) ++ tpl "'>" ++ nl
    ++ (packages ≫= auxEntry)
    ++ tpl "</filelists>" ++ nl
  ∧ Repo.generateOtherXml packages
    = tpl "<?xml version='1.0' encoding='UTF-8'?>" ++ nl
      ++ tpl "<otherdata xmlns='http://linux.duke.edu/metadata/other' packages='"
      ++ intToString (Z.of_nat (length packages)) ++ tpl "'>" ++ nl
      ++ (packages ≫= auxEntry)
      ++ tpl "</otherdata>" ++ nl.
Proof.
  unfold Repo.generateFilelistsXml, Repo.generateOtherXml.
  rewrite !fold_auxPackage, <- !app_assoc. by split.
Qed.

Lemma ascii_digits (u : Decimal.uint) : asciiText (digits u).
Proof.
  unfold asciiText. induction u; cbn [digits]; by constructor.
Qed.

Lemma ascii_intToString (z : Z) : asciiText (intToString z).
Proof.
  unfold intToString. destruct (Z.to_int z); [apply ascii_digits|].
  apply Forall_cons. split; [done|apply ascii_digits].
Qed.

Lemma ascii_numToString (n : jsnum) : asciiText (numToString n).
Proof.
  destruct n; [apply ascii_intToString|]. by apply (bool_decide_unpack _).
Qed.

Lemma ascii_escapeXml (s : jsstring) : asciiText s → asciiText (Repo.escapeXml s).
Proof.
  intros Hs. rewrite escapeXml_units. apply Forall_bind.
  eapply Forall_impl; [exact Hs|]. intros u Hu. unfold compose, escapeUnit.
  repeat match goal with
         | |- context [(?a =? ?b)%N] =>
             destruct (a =? b)%N; [by apply (bool_decide_unpack _)|]
         end.
  by apply Forall_singleton.
Qed.

(** Splits a text into its pieces and settles the literal ones. *)
Ltac ascii_pieces :=
  unfold asciiText in *;
  repeat match goal with
         | |- Forall _ (_ ++ _) => apply Forall_app; split
         end;
  try (apply (bool_decide_unpack _); vm_compute; exact I);
  try apply ascii_numToString;
  try apply ascii_intToString;
  try (apply ascii_escapeXml; unfold asciiText);
  try assumption.

Lemma ascii_requiresEntry (dep : Rpm.Dependency) :
  asciiDependency dep → asciiText (Repo.requiresEntry [] dep).
Proof.
  intros (Hname & Hversion & Hflags). unfold Repo.requiresEntry.
  destruct (Rpm.flags dep) as [[|f flags]|];
    destruct (Rpm.version dep) as [[|v version]|];
    cbn [truthy default from_option] in *; ascii_pieces.
Qed.

Lemma ascii_entry (timestamp : jsnum) (pkg : Repo.PackageMetadata) :
  asciiPackage pkg →
  asciiText (entryBefore pkg
             ++ timeElement timestamp (Repo.epochSeconds (Repo.buildTime pkg))
             ++ entryAfter pkg).
Proof.
  intros (? & ? & ? & ? & ? & ? & ? & ? & ? & ? & ? & ? & Hdeps).
  unfold entryBefore, timeElement, entryAfter.
  destruct (Repo.dependencies pkg) as [[|dep deps]|]; cbn [from_option] in Hdeps;
    [ascii_pieces| |ascii_pieces].
  assert (Hreqs : asciiText ((dep :: deps) ≫= Repo.requiresEntry [])).
  { apply Forall_bind. eapply Forall_impl; [exact Hdeps|].
    intros d Hd. exact (ascii_requiresEntry d Hd). }
  revert Hreqs. generalize ((dep :: deps) ≫= Repo.requiresEntry []).
  intros reqs Hreqs. ascii_pieces.
Qed.

Lemma ascii_auxEntry (pkg : Repo.PackageMetadata) :
  asciiPackage pkg → asciiText (auxEntry pkg).
Proof.
  intros (? & ? & ? & ? & ? & ? & ? & ? & ? & ? & ? & ? & _).
  unfold auxEntry. ascii_pieces.
Qed.

(** X10: when every text field of every package is ASCII, the open-size
    declared for each of the three documents is the byte length of the
    uncompressed document, and the size is the byte length of the
    compressed one. *)
Theorem X10_sizes_of_ascii_packages
    (digest_SHA256 CompressionStream_gzip : Repo.bytes → Repo.bytes)
    (W : Type) (w : W) (packages : list Repo.PackageMetadata) :
  Forall asciiPackage packages →
  ∃ bundle : Repo.RepoMetadata,
    Repo.generateRepoMetadata digest_SHA256 CompressionStream_gzip packages w
    = (inr bundle, w)
    ∧ Forall (λ doc,
        Repo.openSize doc = length (Repo.TextEncoder_encode (Repo.xml doc))
        ∧ Repo.gz doc = CompressionStream_gzip (Repo.TextEncoder_encode (Repo.xml doc))
        ∧ Repo.doc_size doc = length (Repo.gz doc))
        [Repo.primary bundle; Repo.filelists bundle; Repo.other bundle].
Proof.
  intros Hascii. eexists. split; [reflexivity|].
  assert (Haux : asciiText (packages ≫= auxEntry)).
  { apply Forall_bind. eapply Forall_impl; [exact Hascii|].
    intros pkg Hpkg. exact (ascii_auxEntry pkg Hpkg). }
  repeat (apply Forall_cons; split); try (by apply Forall_nil_2);
    cbn [Repo.primary Repo.filelists Repo.other Repo.xml Repo.gz Repo.openSize
         Repo.doc_size];
    (split; [|by split]);
    rewrite TextEncoder_encode_ascii; try reflexivity.
  - rewrite generatePrimaryXml_entries. unfold primaryHead. ascii_pieces.
    apply Forall_bind. eapply Forall_impl; [exact Hascii|].
    intros pkg Hpkg. exact (ascii_entry _ pkg Hpkg).
  - unfold Repo.generateFilelistsXml. rewrite fold_auxPackage. ascii_pieces.
  - unfold Repo.generateOtherXml. rewrite fold_auxPackage. ascii_pieces.
Qed.

Lemma X10_sizes_of_ascii_packages_witness :
  Forall asciiPackage [plain_pkg]
  ∧ ∃ bundle : Repo.RepoMetadata,
      Repo.generateRepoMetadata (λ _, [1; 2]%N) (λ b, 31%N :: b) [plain_pkg] ()
      = (inr bundle, ())
      ∧ Forall (λ doc,
          Repo.openSize doc = length (Repo.TextEncoder_encode (Repo.xml doc))
          ∧ Repo.gz doc = 31%N :: Repo.TextEncoder_encode (Repo.xml doc)
          ∧ Repo.doc_size doc = length (Repo.gz doc))
          [Repo.primary bundle; Repo.filelists bundle; Repo.other bundle].
Proof.
  assert (H : Forall asciiPackage [plain_pkg]).
  { apply Forall_singleton. unfold asciiPackage, asciiText.
    cbn [plain_pkg Repo.name Repo.version Repo.release Repo.arch Repo.summary
         Repo.description Repo.packager Repo.checksum_type Repo.checksum_value
         Repo.filename Repo.license Repo.vendor Repo.dependencies from_option].
    repeat split; try (apply (bool_decide_unpack _); vm_compute; exact I).
    apply Forall_singleton. unfold asciiDependency, asciiText.
    cbn [Rpm.name Rpm.version Rpm.flags from_option].
    repeat split; apply (bool_decide_unpack _); vm_compute; exact I. }
  split; [exact H|].
  exact (X10_sizes_of_ascii_packages (λ _, [1; 2]%N) (λ b, 31%N :: b) unit ()
           [plain_pkg] H).
Defined.

(** ** Further properties of the version ledger *)

Section LedgerFacts.
Context {Net : Type}.
Variable toISOString : Z → jsstring.
Variable provider : Providers.Provider Net.

Implicit Types (w : World Versions.VersionIndex Net) (d : Providers.VersionInfo).

(** What a call leaves, by the three ways it can end. *)
Lemma checkAndUpdate_cases w :
  (∃ e n, Versions.checkAndUpdate toISOString provider w
          = (inl e, mkWorld (kv w) (time w) (reads w) n))
  ∨ (∃ d n, Providers.fetchLatestVersion provider (net w) = (inr d, n)
            ∧ Exists (λ v, entryKey v = descriptorKey d) (ledger provider w)
            ∧ Versions.checkAndUpdate toISOString provider w
              = (inr false, mkWorld (kv w) (time w) (reads w) n))
  ∨ (∃ d n, Providers.fetchLatestVersion provider (net w) = (inr d, n)
            ∧ Forall (λ v, entryKey v ≠ descriptorKey d) (ledger provider w)
            ∧ Versions.checkAndUpdate toISOString provider w
              = (inr true,
                 mkWorld
                   (<[Versions.indexKey provider :=
                        Versions.mkVersionIndex
                          (stamped toISOString d (time w (reads w))
                           :: ledger provider w)
                          (Some (toISOString (time w (S (reads w)))))]> (kv w))
                   (time w) (S (S (reads w))) n)).
Proof.
  destruct (Providers.fetchLatestVersion provider (net w)) as [[e|d] n] eqn:Hfetch.
  - left. exists e, n. by apply (checkAndUpdate_throws _ _ w e n).
  - right.
    destruct (decide (Exists (λ v, entryKey v = descriptorKey d) (ledger provider w)))
      as [Hin|Hout].
    + left. exists d, n. split; [done|]. split; [done|].
      by apply (checkAndUpdate_known _ _ w d n).
    + right. apply not_Exists_Forall in Hout; [|intros v; apply _].
      exists d, n. split; [done|]. split; [done|].
      by apply (checkAndUpdate_new _ _ w d n).
Qed.

(** X11: a call keeps the identity keys of the ledger pairwise different:
    a ledger without two entries of the same key has none after the call,
    however the call ends. *)
Theorem X11_keys_stay_unique w :
  NoDup (entryKey <$> ledger provider w) →
  NoDup (entryKey <$>
           ledger provider (Versions.checkAndUpdate toISOString provider w).2).
Proof.
  intros Hnodup.
  destruct (checkAndUpdate_cases w)
    as [(e & n & ->)|[(d & n & _ & _ & ->)|(d & n & _ & Hnew & ->)]];
    cbn [snd]; try exact Hnodup.
  rewrite ledger_after_put. cbn [Versions.versions fmap list_fmap].
  apply NoDup_cons. split; [|exact Hnodup].
  intros Hin. apply list_elem_of_fmap in Hin as (v & Hkey & Hv).
  rewrite Forall_forall in Hnew. apply (Hnew v Hv). by rewrite <- Hkey.
Qed.

(** X12: a call never removes, changes or reorders an entry: the ledger
    after it is the ledger before, or that ledger with one entry put in
    front; and no key of the store but the index key of the provider is
    written. *)
Theorem X12_append_only w :
  let w' := (Versions.checkAndUpdate toISOString provider w).2 in
  (ledger provider w' = ledger provider w
   ∨ ∃ entry, ledger provider w' = entry :: ledger provider w)
  ∧ ∀ key, key ≠ Versions.indexKey provider → kv w' !! key = kv w !! key.
Proof.
  destruct (checkAndUpdate_cases w)
    as [(e & n & ->)|[(d & n & _ & _ & ->)|(d & n & _ & _ & ->)]]; cbn [snd].
  - split; [by left|done].
  - split; [by left|done].
  - split.
    + right. eexists. by rewrite ledger_after_put.
    + intros key Hkey. cbn [kv]. by rewrite lookup_insert_ne.
Qed.

(** X13: a call that does not throw returns [true] exactly when it has
    lengthened the ledger, and that is exactly when no entry had the
    identity key of the reported descriptor. *)
Theorem X13_true_iff_recorded w d (n : Net) :
  Providers.fetchLatestVersion provider (net w) = (inr d, n) →
  ∃ (updated : bool) w',
    Versions.checkAndUpdate toISOString provider w = (inr updated, w')
    ∧ (updated = true
       ↔ Forall (λ v, entryKey v ≠ descriptorKey d) (ledger provider w))
    ∧ (updated = true
       ↔ length (ledger provider w') = S (length (ledger provider w)))
    ∧ (updated = false ↔ kv w' = kv w).
Proof.
  intros Hfetch.
  destruct (decide (Exists (λ v, entryKey v = descriptorKey d) (ledger provider w)))
    as [Hin|Hout].
  - rewrite (checkAndUpdate_known _ _ w d n Hfetch Hin). eexists _, _.
    split; [reflexivity|]. cbn [kv]. repeat split; try done.
    + intros Hall. exfalso. apply Exists_exists in Hin as (v & Hv & Hkey).
      rewrite Forall_forall in Hall. by apply (Hall v Hv).
    + unfold ledger. cbn [kv]. lia.
  - apply not_Exists_Forall in Hout; [|intros v; apply _].
    rewrite (checkAndUpdate_new _ _ w d n Hfetch Hout). eexists _, _.
    split; [reflexivity|]. rewrite ledger_after_put. cbn [kv Versions.versions].
    repeat split; try done.
    intros Hkv. exfalso.
    assert (Hlen : length (ledger provider w)
                   = S (length (ledger provider w))); [|lia].
    unfold ledger at 1. rewrite <- Hkv, lookup_insert_eq. reflexivity.
Qed.

(** X14: the index that is saved is the index that is read: after
    [saveIndex], [getIndex] returns the saved index, [getAllVersions] its
    list and [getLatest] the head of that list. *)
Theorem X14_saveIndex_getIndex w (index : Versions.VersionIndex) :
  ∃ w', Versions.saveIndex provider index w = (inr (), w')
        ∧ Versions.getIndex provider w' = (inr index, w')
        ∧ Versions.getAllVersions provider w' = (inr (Versions.versions index), w')
        ∧ Versions.getLatest provider w'
          = (inr (head (Versions.versions index)), w').
Proof.
  eexists. split; [reflexivity|].
  unfold Versions.getAllVersions, Versions.getLatest, Versions.getIndex, bind,
    kv_get, ret. cbn [kv]. rewrite lookup_insert_eq. by repeat split.
Qed.

End LedgerFacts.

(** X15: the identity key tells version and release apart as long as
    versions hold no hyphen: two such pairs with the same key are the same
    pair. *)
Theorem X15_key_determines_pair (version release version' release' : jsstring) :
  45%N ∉ version → 45%N ∉ version' →
  Versions.keyOf version release = Versions.keyOf version' release' →
  version = version' ∧ release = release'.
Proof.
  unfold Versions.keyOf. cbn [lit app].
  revert version'. induction version as [|u v IH]; intros [|u' v'] Hv Hv' Heq.
  - by injection Heq.
  - exfalso. injection Heq as <- _. apply Hv'. left.
  - exfalso. injection Heq as -> _. apply Hv. left.
  - injection Heq as -> Heq.
    destruct (IH v') as [Hversion Hrelease]; [| |done|].
    { intros Hin. apply Hv. by right. }
    { intros Hin. apply Hv'. by right. }
    by rewrite Hversion, Hrelease.
Qed.

(** X16: with a hyphen in a version the key does not tell the pair: while
    the ledger holds an entry of version [v-x] and release [r], a reported
    release of version [v] and release [x-r] is taken for recorded: the call
    returns [false] and writes nothing, although the two versions differ. *)
Theorem X16_hyphen_collision {Net} (toISOString : Z → jsstring)
    (provider : Providers.Provider Net) (w : World Versions.VersionIndex Net)
    (d : Providers.VersionInfo) (n : Net) (entry : Versions.VersionInfo)
    (x : jsstring) :
  Providers.fetchLatestVersion provider (net w) = (inr d, n) →
  entry ∈ ledger provider w →
  Versions.version entry = Providers.version d ++ lit "-" ++ x →
  Providers.release d = x ++ lit "-" ++ Versions.release entry →
  Versions.version entry ≠ Providers.version d
  ∧ Versions.checkAndUpdate toISOString provider w
    = (inr false, mkWorld (kv w) (time w) (reads w) n).
Proof.
  intros Hfetch Hin Hversion Hrelease. split.
  - rewrite Hversion. intros Heq. apply (f_equal length) in Heq.
    rewrite !length_app in Heq. cbn in Heq. lia.
  - apply (checkAndUpdate_known _ _ w d n Hfetch).
    apply Exists_exists. exists entry. split; [exact Hin|].
    unfold entryKey, descriptorKey, Versions.keyOf.
    rewrite Hversion, Hrelease, <- !app_assoc. reflexivity.
Qed.

(** ** Further properties of the metadata store *)

Section StoreFacts.
Context {Meta Net : Type}.
Variable provider : Providers.Provider Net.
Variable extractRpmMetadata : jsstring → jsstring → M (World Meta Net) Meta.

Implicit Types (w : World Meta Net).


(** X18: a deleted record is gone and only it: after [deleteMetadata],
    [hasMetadata] returns [false] and [getMetadata] returns [null] for the
    pair, a bulk read of the pair alone returns nothing, and every other key
    of the store is as before. *)
Theorem X18_delete_then_read w (version release : jsstring) :
  ∃ w',
    Metadata.deleteMetadata provider version release w = (inr (), w')
    ∧ Metadata.hasMetadata provider version release w' = (inr false, w')
    ∧ Metadata.getMetadata provider version release w' = (inr None, w')
    ∧ Metadata.getAllMetadata provider [Metadata.mkVersionRef version release] w'
      = (inr [], w')
    ∧ ∀ key, key ≠ Metadata.getMetadataKey provider version release →
             kv w' !! key = kv w !! key.
Proof.
  eexists. split; [reflexivity|].
  rewrite getAllMetadata_run.
  unfold Metadata.getMetadata, Metadata.hasMetadata, bind, kv_get, ret, stored.
  cbn [kv omap list_omap Metadata.version Metadata.release].
  rewrite lookup_delete_eq.
  split; [reflexivity|]. split; [reflexivity|]. split; [reflexivity|].
  intros key Hkey. by rewrite lookup_delete_ne.
Qed.

End StoreFacts.

Lemma X11_keys_stay_unique_witness :
  NoDup (entryKey <$> ledger scripted freshWorld)
  ∧ NoDup (entryKey <$>
             ledger scripted
               (Versions.checkAndUpdate decimalStamp scripted freshWorld).2).
Proof.
  assert (H : NoDup (entryKey <$> ledger scripted freshWorld))
    by apply NoDup_singleton.
  split; [exact H|]. exact (X11_keys_stay_unique decimalStamp scripted freshWorld H).
Defined.

Lemma X13_true_iff_recorded_witness :
  Providers.fetchLatestVersion scripted (net freshWorld)
  = (inr releaseA, [inr releaseA])
  ∧ ∃ (updated : bool) w',
      Versions.checkAndUpdate decimalStamp scripted freshWorld = (inr updated, w')
      ∧ (updated = true
         ↔ Forall (λ v, entryKey v ≠ descriptorKey releaseA)
             (ledger scripted freshWorld))
      ∧ (updated = true
         ↔ length (ledger scripted w') = S (length (ledger scripted freshWorld)))
      ∧ (updated = false ↔ kv w' = kv freshWorld).
Proof.
  split; [reflexivity|].
  exact (X13_true_iff_recorded decimalStamp scripted freshWorld releaseA
           [inr releaseA] eq_refl).
Defined.

Lemma X15_key_determines_pair_witness :
  (45%N ∉ lit "1.0.0") ∧ (45%N ∉ lit "1.0.0")
  ∧ Versions.keyOf (lit "1.0.0") (lit "a-b") = Versions.keyOf (lit "1.0.0") (lit "a-b")
  ∧ lit "1.0.0" = lit "1.0.0" ∧ lit "a-b" = lit "a-b".
Proof.
  assert (H : 45%N ∉ lit "1.0.0") by (by apply (bool_decide_unpack _)).
  split; [exact H|]. split; [exact H|]. split; [reflexivity|].
  exact (X15_key_determines_pair (lit "1.0.0") (lit "a-b") (lit "1.0.0")
           (lit "a-b") H H eq_refl).
Defined.

Lemma X16_hyphen_collision_witness :
  Providers.fetchLatestVersion scripted (net hyphenWorld) = (inr releaseHyphen, [])
  ∧ entryHyphen ∈ ledger scripted hyphenWorld
  ∧ Versions.version entryHyphen
    = Providers.version releaseHyphen ++ lit "-" ++ lit "2"
  ∧ Providers.release releaseHyphen
    = lit "2" ++ lit "-" ++ Versions.release entryHyphen
  ∧ Versions.version entryHyphen ≠ Providers.version releaseHyphen
  ∧ Versions.checkAndUpdate decimalStamp scripted hyphenWorld
    = (inr false,
       mkWorld (kv hyphenWorld) (time hyphenWorld) (reads hyphenWorld) []).
Proof.
  assert (Hin : entryHyphen ∈ ledger scripted hyphenWorld)
    by apply list_elem_of_here.
  split; [reflexivity|]. split; [exact Hin|].
  split; [reflexivity|]. split; [reflexivity|].
  exact (X16_hyphen_collision decimalStamp scripted hyphenWorld releaseHyphen []
           entryHyphen (lit "2") eq_refl Hin eq_refl eq_refl).
Defined.


(** ** Properties of the worker *)

(** X19: for one provider the key of the version index, the keys of the
    metadata records and the key of the last check are different keys,
    whatever version and release are: no write of one kind can land on a
    document of another kind. *)
Theorem X19_key_families_disjoint {Net} (provider : Providers.Provider Net)
    (version release : jsstring) :
  Versions.indexKey provider ≠ Metadata.getMetadataKey provider version release
  ∧ Versions.indexKey provider ≠ Worker.lastCheckKey provider
  ∧ Metadata.getMetadataKey provider version release ≠ Worker.lastCheckKey provider.
Proof.
  unfold Versions.indexKey, Metadata.getMetadataKey, Worker.lastCheckKey.
  repeat split; intros H; apply app_inv_head in H; discriminate H.
Qed.

Section WorkerFacts.
Context {Meta Net : Type}.
Variable toISOString : Z → jsstring.
Variable provider : Providers.Provider Net.
Variable extractRpmMetadata : jsstring → jsstring → Net → (Error + Meta) * Net.

Implicit Types (s : Worker.State Meta Net) (d : Providers.VersionInfo)
  (v : Versions.VersionInfo).

Abbreviation run := (Worker.handleScheduledForProvider toISOString provider
                       extractRpmMetadata).
Abbreviation backfill := (Worker.backfill provider extractRpmMetadata).

Lemma State_eta s :
  Worker.mkState (Worker.indexes s) (Worker.records s) (Worker.texts s)
    (Worker.clock s) (Worker.ticks s) (Worker.network s) = s.
Proof. by destruct s. Qed.

(** [versionManager.checkAndUpdate()] in the worker, path by path. *)
Lemma worker_checkAndUpdate s :
  Worker.versionManager (Versions.checkAndUpdate toISOString provider) s
  = match Providers.fetchLatestVersion provider (Worker.network s) with
    | (inl e, n) =>
        (inl e, Worker.mkState (Worker.indexes s) (Worker.records s)
                  (Worker.texts s) (Worker.clock s) (Worker.ticks s) n)
    | (inr d, n) =>
        if existsb (λ v, bool_decide
                           (Versions.keyOf (Versions.version v) (Versions.release v)
                            = descriptorKey d))
             (workerLedger provider s)
        then (inr false, Worker.mkState (Worker.indexes s) (Worker.records s)
                           (Worker.texts s) (Worker.clock s) (Worker.ticks s) n)
        else
          (inr true,
           Worker.mkState
             (<[Versions.indexKey provider :=
                  Versions.mkVersionIndex
                    (stamped toISOString d (Worker.clock s (Worker.ticks s))
                     :: workerLedger provider s)
                    (Some (toISOString (Worker.clock s (S (Worker.ticks s)))))]>
                (Worker.indexes s))
             (Worker.records s) (Worker.texts s) (Worker.clock s)
             (S (S (Worker.ticks s))) n)
    end.
Proof.
  unfold Worker.versionManager. rewrite checkAndUpdate_run. cbn [net kv time reads].
  destruct (Providers.fetchLatestVersion provider (Worker.network s)) as [[e|d] n];
    [reflexivity|].
  unfold ledger, workerLedger. cbn [kv].
  by destruct (existsb _ _).
Qed.

(** One turn of the backfill loop on an entry that has its record, and on
    one that has not. *)
Lemma worker_hasMetadata s v :
  Worker.metadataManager
    (Metadata.hasMetadata provider (Versions.version v) (Versions.release v)) s
  = (inr (bool_decide (is_Some (recordOf provider s v))), s).
Proof.
  unfold Worker.metadataManager, Metadata.hasMetadata, bind, kv_get, ret, recordOf.
  cbn [kv time reads net]. by rewrite State_eta.
Qed.

Lemma worker_extractAndStore s v :
  Worker.metadataManager
    (Metadata.extractAndStore provider (Worker.extractor extractRpmMetadata)
       (Versions.version v) (Versions.release v) (Versions.url v)
       (Versions.filename v)) s
  = match extractRpmMetadata (Versions.url v) (Versions.filename v)
            (Worker.network s) with
    | (inl e, n) =>
        (inl e, Worker.mkState (Worker.indexes s) (Worker.records s)
                  (Worker.texts s) (Worker.clock s) (Worker.ticks s) n)
    | (inr metadata, n) =>
        (inr (),
         Worker.mkState (Worker.indexes s)
           (<[Metadata.getMetadataKey provider (Versions.version v)
                (Versions.release v) := metadata]> (Worker.records s))
           (Worker.texts s) (Worker.clock s) (Worker.ticks s) n)
    end.
Proof.
  unfold Worker.metadataManager, Metadata.extractAndStore, bind, Worker.extractor,
    kv_put. cbn [net kv time reads].
  by destruct (extractRpmMetadata _ _ _) as [[e|metadata] n].
Qed.

Lemma backfill_done (versions : list Versions.VersionInfo) (c : nat) s :
  1 ≤ c → backfill versions c s = (inr c, s).
Proof.
  intros Hc. destruct versions as [|v versions]; [reflexivity|].
  cbn [Worker.backfill]. unfold Worker.MAX_RPMS_PER_RUN.
  by rewrite (proj2 (Nat.leb_le 1 c) Hc).
Qed.

Lemma backfill_present v (versions : list Versions.VersionInfo) s :
  is_Some (recordOf provider s v) →
  backfill (v :: versions) 0 s = backfill versions 0 s.
Proof.
  intros Hhas. cbn [Worker.backfill]. unfold Worker.MAX_RPMS_PER_RUN.
  cbn [Nat.leb]. unfold bind at 1. rewrite worker_hasMetadata.
  by rewrite (bool_decide_eq_true_2 _ Hhas).
Qed.

Lemma backfill_missing v (versions : list Versions.VersionInfo) s :
  recordOf provider s v = None →
  backfill (v :: versions) 0 s
  = match extractRpmMetadata (Versions.url v) (Versions.filename v)
            (Worker.network s) with
    | (inl e, n) =>
        (inl e, Worker.mkState (Worker.indexes s) (Worker.records s)
                  (Worker.texts s) (Worker.clock s) (Worker.ticks s) n)
    | (inr metadata, n) =>
        (inr 1,
         Worker.mkState (Worker.indexes s)
           (<[Metadata.getMetadataKey provider (Versions.version v)
                (Versions.release v) := metadata]> (Worker.records s))
           (Worker.texts s) (Worker.clock s) (Worker.ticks s) n)
    end.
Proof.
  intros Hnone. cbn [Worker.backfill]. unfold Worker.MAX_RPMS_PER_RUN.
  cbn [Nat.leb]. unfold bind at 1. rewrite worker_hasMetadata, Hnone.
  rewrite bool_decide_eq_false_2 by (by intros [? ?]). cbn [negb].
  unfold bind at 1. rewrite worker_extractAndStore.
  destruct (extractRpmMetadata _ _ _) as [[e|metadata] n]; [reflexivity|].
  by rewrite backfill_done.
Qed.

Lemma backfill_skips (present versions : list Versions.VersionInfo) s :
  Forall (λ v, is_Some (recordOf provider s v)) present →
  backfill (present ++ versions) 0 s = backfill versions 0 s.
Proof.
  induction 1 as [|v present Hv _ IH]; [reflexivity|].
  cbn [app]. by rewrite backfill_present.
Qed.

(** What the backfill loop can do: it leaves index and text values alone
    and writes at most one record. *)
Lemma backfill_frame (versions : list Versions.VersionInfo) (c : nat) s :
  ∃ r s', backfill versions c s = (r, s')
    ∧ Worker.indexes s' = Worker.indexes s
    ∧ Worker.texts s' = Worker.texts s
    ∧ Worker.ticks s' = Worker.ticks s
    ∧ ∃ key, ∀ key', key' ≠ key →
               Worker.records s' !! key' = Worker.records s !! key'.
Proof.
  destruct (decide (1 ≤ c)) as [Hc|Hc].
  { rewrite backfill_done by done. eexists _, s. repeat split. by exists []. }
  assert (c = 0) as -> by lia. clear Hc.
  induction versions as [|v versions IH].
  { eexists _, s. split; [reflexivity|]. repeat split. by exists []. }
  destruct (recordOf provider s v) as [metadata|] eqn:Hrecord.
  - rewrite backfill_present by (by rewrite Hrecord). exact IH.
  - rewrite (backfill_missing _ _ _ Hrecord).
    destruct (extractRpmMetadata _ _ _) as [[e|metadata] n]; eexists _, _;
      (split; [reflexivity|]); cbn [Worker.indexes Worker.texts Worker.ticks
                                     Worker.records]; repeat split.
    + by exists [].
    + exists (Metadata.getMetadataKey provider (Versions.version v)
                (Versions.release v)).
      intros key' Hkey. by rewrite lookup_insert_ne.
Qed.

Lemma bind_returns {W A B} (m : M W A) (k : A → M W B) (w w' : W) (a : A) :
  m w = (inr a, w') → bind m k w = k a w'.
Proof. intros H. unfold bind. by rewrite H. Qed.

Lemma bind_throws {W A B} (m : M W A) (k : A → M W B) (w w' : W) (e : Error) :
  m w = (inl e, w') → bind m k w = (inl e, w').
Proof. intros H. unfold bind. by rewrite H. Qed.

Lemma worker_getAllVersions s :
  Worker.versionManager (Versions.getAllVersions provider) s
  = (inr (workerLedger provider s), s).
Proof.
  unfold Worker.versionManager. rewrite getAllVersions_ledger.
  cbn [kv time reads net]. by rewrite State_eta.
Qed.

Lemma worker_getLatest s :
  Worker.versionManager (Versions.getLatest provider) s
  = (inr (head (workerLedger provider s)), s).
Proof.
  unfold Worker.versionManager. rewrite getLatest_ledger.
  cbn [kv time reads net]. by rewrite State_eta.
Qed.

(** The end of the handler: the time of the check is written. *)
Lemma worker_stamp s :
  bind Worker.Date_now
    (λ now, Worker.VERSION_INDEX_put (Worker.lastCheckKey provider)
              (intToString now)) s
  = (inr (),
     Worker.mkState (Worker.indexes s) (Worker.records s)
       (<[Worker.lastCheckKey provider :=
            intToString (Worker.clock s (Worker.ticks s))]> (Worker.texts s))
       (Worker.clock s) (S (Worker.ticks s)) (Worker.network s)).
Proof. reflexivity. Qed.

(** The handler after a call of [checkAndUpdate] that returned [false] in
    state [s1]: backfill, then the time of the check. *)
Lemma run_backfill s :
  ∀ d n,
    Providers.fetchLatestVersion provider (Worker.network s) = (inr d, n) →
    Exists (λ v, entryKey v = descriptorKey d) (workerLedger provider s) →
    let s1 := Worker.mkState (Worker.indexes s) (Worker.records s)
                (Worker.texts s) (Worker.clock s) (Worker.ticks s) n in
    run s
    = match backfill (workerLedger provider s) 0 s1 with
      | (inl e, s2) => (inr (), s2)
      | (inr _, s2) =>
          (inr (),
           Worker.mkState (Worker.indexes s2) (Worker.records s2)
             (<[Worker.lastCheckKey provider :=
                  intToString (Worker.clock s2 (Worker.ticks s2))]> (Worker.texts s2))
             (Worker.clock s2) (S (Worker.ticks s2)) (Worker.network s2))
      end.
Proof.
  intros d n Hfetch Hin s1.
  unfold Worker.handleScheduledForProvider, tryCatch.
  rewrite (bind_returns _ _ s s1 false)
    by (by rewrite worker_checkAndUpdate, Hfetch, (existsb_key_true _ _ Hin)).
  cbn iota.
  unfold bind at 1.
  rewrite (bind_returns _ _ s1 s1 (workerLedger provider s))
    by exact (worker_getAllVersions s1).
  destruct (backfill (workerLedger provider s) 0 s1) as [[e|c] s2];
    [reflexivity|].
  by rewrite worker_stamp.
Qed.

(** X20: the scheduled handler never lets a failure of the provider out:
    when the fetch throws, the handler returns normally, and index, records
    and text values are as before; the time of the last check in particular
    is not renewed. *)
Theorem X20_provider_failure_is_contained s (e : Error) (n : Net) :
  Providers.fetchLatestVersion provider (Worker.network s) = (inl e, n) →
  run s = (inr (), Worker.mkState (Worker.indexes s) (Worker.records s)
                    (Worker.texts s) (Worker.clock s) (Worker.ticks s) n).
Proof.
  intros Hfetch. unfold Worker.handleScheduledForProvider, tryCatch.
  unfold bind at 1. by rewrite worker_checkAndUpdate, Hfetch.
Qed.

(** The handler after a call of [checkAndUpdate] that returned [true]: the
    extraction for the new entry, and the time of the check if it succeeds. *)
Lemma run_discovery s d (n1 : Net) :
  Providers.fetchLatestVersion provider (Worker.network s) = (inr d, n1) →
  Forall (λ v, entryKey v ≠ descriptorKey d) (workerLedger provider s) →
  run s
  = let indexes' :=
      <[Versions.indexKey provider :=
          Versions.mkVersionIndex
            (stamped toISOString d (Worker.clock s (Worker.ticks s))
             :: workerLedger provider s)
            (Some (toISOString (Worker.clock s (S (Worker.ticks s)))))]>
        (Worker.indexes s) in
    match extractRpmMetadata (Providers.url d) (Providers.filename d) n1 with
    | (inl e, n2) =>
        (inr (),
         Worker.mkState indexes' (Worker.records s) (Worker.texts s)
           (Worker.clock s) (S (S (Worker.ticks s))) n2)
    | (inr metadata, n2) =>
        (inr (),
         Worker.mkState indexes'
           (<[Metadata.getMetadataKey provider (Providers.version d)
                (Providers.release d) := metadata]> (Worker.records s))
           (<[Worker.lastCheckKey provider :=
                intToString (Worker.clock s (S (S (Worker.ticks s))))]>
              (Worker.texts s))
           (Worker.clock s) (S (S (S (Worker.ticks s)))) n2)
    end.
Proof.
  intros Hfetch Hnew.
  unfold Worker.handleScheduledForProvider, tryCatch.
  erewrite (bind_returns _ _ s _ true)
    by (by rewrite worker_checkAndUpdate, Hfetch, (existsb_key_false _ _ Hnew)).
  cbn iota.
  unfold bind at 1.
  erewrite (bind_returns _ _ _ _ (Some (stamped toISOString d _)));
    [|rewrite worker_getLatest; unfold workerLedger; cbn [Worker.indexes];
      by rewrite lookup_insert_eq].
  cbn zeta.
  destruct (extractRpmMetadata (Providers.url d) (Providers.filename d) n1)
    as [[e|metadata] n2] eqn:Hextract.
  - erewrite (bind_throws _ _ _ _ e);
      [|rewrite worker_extractAndStore; cbn [stamped Versions.url Versions.filename
          Worker.network]; by rewrite Hextract].
    reflexivity.
  - erewrite (bind_returns _ _ _ _ ());
      [|rewrite worker_extractAndStore; cbn [stamped Versions.url Versions.filename
          Worker.network]; by rewrite Hextract].
    reflexivity.
Qed.

(** X21: a release that is new is recorded and its metadata extracted in
    the same run: the index gets the stamped entry in front, the record is
    stored under the key of the release, and the time of the check is
    written last. *)
Theorem X21_discovery_then_extraction s d (n1 n2 : Net) (metadata : Meta) :
  Providers.fetchLatestVersion provider (Worker.network s) = (inr d, n1) →
  Forall (λ v, entryKey v ≠ descriptorKey d) (workerLedger provider s) →
  extractRpmMetadata (Providers.url d) (Providers.filename d) n1
  = (inr metadata, n2) →
  run s
  = (inr (),
     Worker.mkState
       (<[Versions.indexKey provider :=
            Versions.mkVersionIndex
              (stamped toISOString d (Worker.clock s (Worker.ticks s))
               :: workerLedger provider s)
              (Some (toISOString (Worker.clock s (S (Worker.ticks s)))))]>
          (Worker.indexes s))
       (<[Metadata.getMetadataKey provider (Providers.version d)
            (Providers.release d) := metadata]> (Worker.records s))
       (<[Worker.lastCheckKey provider :=
            intToString (Worker.clock s (S (S (Worker.ticks s))))]>
          (Worker.texts s))
       (Worker.clock s) (S (S (S (Worker.ticks s)))) n2).
Proof.
  intros Hfetch Hnew Hextract.
  rewrite (run_discovery s d n1 Hfetch Hnew). cbn zeta. by rewrite Hextract.
Qed.

(** X22: a discovery is not undone when its extraction fails: the handler
    returns normally, the new entry stays in the index, no record is stored
    and the time of the check is not written. *)
Theorem X22_failed_extraction_keeps_discovery s d (n1 n2 : Net) (e : Error) :
  Providers.fetchLatestVersion provider (Worker.network s) = (inr d, n1) →
  Forall (λ v, entryKey v ≠ descriptorKey d) (workerLedger provider s) →
  extractRpmMetadata (Providers.url d) (Providers.filename d) n1 = (inl e, n2) →
  run s
  = (inr (),
     Worker.mkState
       (<[Versions.indexKey provider :=
            Versions.mkVersionIndex
              (stamped toISOString d (Worker.clock s (Worker.ticks s))
               :: workerLedger provider s)
              (Some (toISOString (Worker.clock s (S (Worker.ticks s)))))]>
          (Worker.indexes s))
       (Worker.records s) (Worker.texts s)
       (Worker.clock s) (S (S (Worker.ticks s))) n2).
Proof.
  intros Hfetch Hnew Hextract.
  rewrite (run_discovery s d n1 Hfetch Hnew). cbn zeta. by rewrite Hextract.
Qed.

(** X23: when the provider reports nothing new, the handler extracts the
    metadata of the first entry of the ledger that has no record, and of no
    other entry, however many lack one; the ledger is left as it is. *)
Theorem X23_backfill_first_missing s d (n1 n2 : Net)
    (present later : list Versions.VersionInfo) v (metadata : Meta) :
  Providers.fetchLatestVersion provider (Worker.network s) = (inr d, n1) →
  Exists (λ v, entryKey v = descriptorKey d) (workerLedger provider s) →
  workerLedger provider s = present ++ v :: later →
  Forall (λ v, is_Some (recordOf provider s v)) present →
  recordOf provider s v = None →
  extractRpmMetadata (Versions.url v) (Versions.filename v) n1 = (inr metadata, n2) →
  run s
  = (inr (),
     Worker.mkState (Worker.indexes s)
       (<[Metadata.getMetadataKey provider (Versions.version v)
            (Versions.release v) := metadata]> (Worker.records s))
       (<[Worker.lastCheckKey provider :=
            intToString (Worker.clock s (Worker.ticks s))]> (Worker.texts s))
       (Worker.clock s) (S (Worker.ticks s)) n2).
Proof.
  intros Hfetch Hin Hledger Hpresent Hmissing Hextract.
  rewrite (run_backfill s d n1 Hfetch Hin). cbn zeta.
  rewrite Hledger, backfill_skips by exact Hpresent.
  rewrite backfill_missing by exact Hmissing.
  cbn [Worker.network]. by rewrite Hextract.
Qed.

(** X24: when the provider reports nothing new and every entry has its
    record, a run extracts nothing: it only writes the time of the check. *)
Theorem X24_idle_run s d (n : Net) :
  Providers.fetchLatestVersion provider (Worker.network s) = (inr d, n) →
  Exists (λ v, entryKey v = descriptorKey d) (workerLedger provider s) →
  Forall (λ v, is_Some (recordOf provider s v)) (workerLedger provider s) →
  run s
  = (inr (),
     Worker.mkState (Worker.indexes s) (Worker.records s)
       (<[Worker.lastCheckKey provider :=
            intToString (Worker.clock s (Worker.ticks s))]> (Worker.texts s))
       (Worker.clock s) (S (Worker.ticks s)) n).
Proof.
  intros Hfetch Hin Hpresent.
  rewrite (run_backfill s d n Hfetch Hin). cbn zeta.
  rewrite <- (app_nil_r (workerLedger provider s)) at 1.
  rewrite backfill_skips by exact Hpresent. reflexivity.
Qed.

(** X25: whatever provider and extractor do, a run returns normally, leaves
    the ledger as it was or with one entry more in front, and changes the
    records under at most one key: one extraction a run at most. *)
Theorem X25_one_record_a_run s :
  ∃ s', run s = (inr (), s')
    ∧ (workerLedger provider s' = workerLedger provider s
       ∨ ∃ entry, workerLedger provider s' = entry :: workerLedger provider s)
    ∧ ∃ key, ∀ key', key' ≠ key →
               Worker.records s' !! key' = Worker.records s !! key'.
Proof.
  destruct (Providers.fetchLatestVersion provider (Worker.network s))
    as [[e|d] n1] eqn:Hfetch.
  { unfold Worker.handleScheduledForProvider, tryCatch.
    rewrite (bind_throws _ _ s _ e)
      by (by rewrite worker_checkAndUpdate, Hfetch).
    eexists. split; [reflexivity|]. split; [by left|]. by exists []. }
  destruct (decide (Exists (λ v, entryKey v = descriptorKey d)
                      (workerLedger provider s))) as [Hin|Hout].
  - rewrite (run_backfill s d n1 Hfetch Hin). cbn zeta.
    destruct (backfill_frame (workerLedger provider s) 0
                (Worker.mkState (Worker.indexes s) (Worker.records s)
                   (Worker.texts s) (Worker.clock s) (Worker.ticks s) n1))
      as (r & s2 & -> & Hindexes & _ & _ & key & Hkey).
    cbn [Worker.indexes Worker.records] in Hindexes, Hkey.
    destruct r as [e|c]; eexists; (split; [reflexivity|]);
      unfold workerLedger; cbn [Worker.indexes Worker.records];
      rewrite Hindexes; (split; [by left|]); exists key; exact Hkey.
  - apply not_Exists_Forall in Hout; [|intros v; apply _].
    rewrite (run_discovery s d n1 Hfetch Hout). cbn zeta.
    destruct (extractRpmMetadata (Providers.url d) (Providers.filename d) n1)
      as [[e|metadata] n2]; (eexists; split; [reflexivity|]);
      unfold workerLedger; cbn [Worker.indexes Worker.records];
      rewrite lookup_insert_eq; cbn [default Versions.versions];
      (split; [right; eexists; reflexivity|]).
    + by exists [].
    + exists (Metadata.getMetadataKey provider (Providers.version d)
                (Providers.release d)).
      intros key' Hkey. by rewrite lookup_insert_ne.
Qed.

End WorkerFacts.

Section MetadataHandlerFacts.
Context {Net : Type}.
Variable digest_SHA256 CompressionStream_gzip : Repo.bytes → Repo.bytes.
Variable provider : Providers.Provider Net.

Implicit Types (s : Worker.State Repo.PackageMetadata Net).

Abbreviation serve := (Worker.handleMetadata digest_SHA256 CompressionStream_gzip
                         provider).

(** The packages a metadata request is answered from: the records of the
    ledger entries, in ledger order, entries without record left out. *)
Lemma worker_getAllMetadata s (versions : list Versions.VersionInfo) :
  Worker.metadataManager
    (Metadata.getAllMetadata provider
       (map (λ v, Metadata.mkVersionRef (Versions.version v) (Versions.release v))
            versions)) s
  = (inr (omap (recordOf provider s) versions), s).
Proof.
  unfold Worker.metadataManager. rewrite getAllMetadata_run.
  cbn [kv time reads net]. rewrite State_eta. do 2 f_equal.
  induction versions as [|v versions IH]; [reflexivity|].
  cbn [map omap list_omap]. by rewrite IH.
Qed.

(** [handleMetadata] up to the choice of the file. *)
Lemma serve_run (path : jsstring) s :
  serve path s
  = if length (workerLedger provider s) =? 0
    then (inr (Worker.mkResponse 503 emptyString
                 (Repo.Str (lit "No versions available")) []), s)
    else
      let metadataList := omap (recordOf provider s) (workerLedger provider s) in
      if length metadataList =? 0
      then (inr (Worker.mkResponse 503 emptyString
                   (Repo.Str (lit "Metadata not yet extracted. Please try again in a few minutes."))
                   []), s)
      else
        bind (Repo.generateRepoMetadata digest_SHA256 CompressionStream_gzip
                metadataList)
          (λ repoMetadata,
             if endsWith path (lit "repomd.xml")
             then ret (Worker.metadataResponse
                         (Repo.Str (Repo.repomd_xml repoMetadata))
                         (lit "application/xml"))
             else if endsWith path (lit "primary.xml.gz")
             then ret (Worker.metadataResponse
                         (Repo.Buf (Repo.gz (Repo.primary repoMetadata)))
                         (lit "application/x-gzip"))
             else if endsWith path (lit "filelists.xml.gz")
             then ret (Worker.metadataResponse
                         (Repo.Buf (Repo.gz (Repo.filelists repoMetadata)))
                         (lit "application/x-gzip"))
             else if endsWith path (lit "other.xml.gz")
             then ret (Worker.metadataResponse
                         (Repo.Buf (Repo.gz (Repo.other repoMetadata)))
                         (lit "application/x-gzip"))
             else ret (Worker.mkResponse 404 emptyString
                         (Repo.Str (lit "Not found")) []))
          s.
Proof.
  unfold Worker.handleMetadata.
  rewrite (bind_returns _ _ s s (workerLedger provider s))
    by apply worker_getAllVersions.
  destruct (length (workerLedger provider s) =? 0); [reflexivity|].
  rewrite (bind_returns _ _ s s (omap (recordOf provider s) (workerLedger provider s)))
    by apply worker_getAllMetadata.
  cbn zeta.
  by destruct (length (omap (recordOf provider s) (workerLedger provider s)) =? 0).
Qed.

(** X26: a metadata request only reads: whatever the path, the handler
    returns a response without throwing and leaves index, records and text
    values as they are; the response is 503 as long as the ledger is empty
    or no entry of it has a record. *)
Theorem X26_metadata_request_reads_only (path : jsstring) s :
  ∃ response : Worker.Response,
    serve path s = (inr response, s)
    ∧ (omap (recordOf provider s) (workerLedger provider s) = [] →
       Worker.status response = 503%Z)
    ∧ (Worker.status response = 503%Z →
       omap (recordOf provider s) (workerLedger provider s) = []).
Proof.
  rewrite serve_run.
  destruct (workerLedger provider s) as [|v ledger] eqn:Hledger.
  { eexists. split; [reflexivity|]. by split. }
  cbn [length Nat.eqb]. cbn zeta.
  destruct (omap (recordOf provider s) (v :: ledger)) as [|m0 rest] eqn:Hlist.
  { eexists. split; [reflexivity|]. by split. }
  cbn [length Nat.eqb]. unfold bind, Repo.generateRepoMetadata, bind,
    Repo.gzipCompress, Repo.calculateSha256, ret.
  repeat match goal with
         | |- context [if ?b then _ else _] => destruct b
         end;
    eexists; (split; [reflexivity|]); split; intros H; discriminate H.
Qed.

(** X27: the index that is served describes the records of the ledger: a
    request for [repomd.xml] is answered with status 200 and the repomd
    document of the packages recorded for the ledger entries, in ledger
    order; its revision is the build time, in whole seconds, of the first
    entry of the ledger that has a record. *)
Theorem X27_served_revision (path : jsstring) s
    (newest : Repo.PackageMetadata) (older : list Repo.PackageMetadata) :
  omap (recordOf provider s) (workerLedger provider s) = newest :: older →
  endsWith path (lit "repomd.xml") = true →
  ∃ (bundle : Repo.RepoMetadata) (rest : jsstring),
    Repo.generateRepoMetadata digest_SHA256 CompressionStream_gzip
      (newest :: older) s = (inr bundle, s)
    ∧ serve path s
      = (inr (Worker.metadataResponse (Repo.Str (Repo.repomd_xml bundle))
                (lit "application/xml")), s)
    ∧ Repo.repomd_xml bundle
      = repomdHead (Repo.epochSeconds (Repo.buildTime newest)) ++ rest.
Proof.
  intros Hlist Hpath. rewrite serve_run.
  destruct (workerLedger provider s) as [|v ledger] eqn:Hledger; [discriminate|].
  cbn [length Nat.eqb]. cbn zeta. rewrite Hlist. cbn [length Nat.eqb].
  eexists _, _. split; [reflexivity|]. split.
  - erewrite bind_returns by reflexivity. by rewrite Hpath.
  - cbn [Repo.repomd_xml]. unfold Repo.generateRepomdXml, Repo.repomdData, repomdHead.
    rewrite <- !app_assoc. reflexivity.
Qed.

End MetadataHandlerFacts.

Section DownloadFacts.
Context {Meta Net : Type}.
Variable provider : Providers.Provider Net.
Variable fetch : jsstring → Net → (Error + Worker.OriginResponse) * Net.

Implicit Types (s : Worker.State Meta Net).

Abbreviation download := (Worker.handleRpmDownload (Meta := Meta) provider fetch).

Lemma find_first {A} (f : A → bool) (before after : list A) (x : A) :
  Forall (λ y, f y = false) before → f x = true →
  find f (before ++ x :: after) = Some x.
Proof.
  induction 1 as [|y before Hy _ IH]; intros Hx; cbn [app find].
  - by rewrite Hx.
  - rewrite Hy. by apply IH.
Qed.

Lemma find_nothing {A} (f : A → bool) (l : list A) :
  Forall (λ y, f y = false) l → find f l = None.
Proof.
  induction 1 as [|y l Hy _ IH]; [reflexivity|]. cbn [find]. by rewrite Hy.
Qed.

(** X28: a file name that no entry of the ledger carries is answered with
    404 without any request to an origin: nothing but recorded files can be
    downloaded through the proxy. *)
Theorem X28_unknown_file_not_fetched (filename : jsstring) s :
  Forall (λ v, Versions.filename v ≠ filename) (workerLedger provider s) →
  download filename s
  = (inr (Worker.mkResponse 404 emptyString
            (Repo.Str (lit "RPM not found in index")) []), s).
Proof.
  intros Hnone. unfold Worker.handleRpmDownload.
  rewrite (bind_returns _ _ s s (workerLedger provider s))
    by apply worker_getAllVersions.
  rewrite find_nothing; [reflexivity|].
  eapply Forall_impl; [exact Hnone|]. intros v Hv.
  by apply bool_decide_eq_false.
Qed.

(** X29: a recorded file is fetched from the URL of the first ledger entry
    of that file name, and what the origin answers with success is passed
    on: status, status text and body are the origin's, and its
    Content-Length, when it gives one, is among the headers. *)
Theorem X29_download_passes_origin (filename : jsstring) s
    (before after : list Versions.VersionInfo) (v : Versions.VersionInfo)
    (origin : Worker.OriginResponse) (n : Net) :
  workerLedger provider s = before ++ v :: after →
  Forall (λ v', Versions.filename v' ≠ filename) before →
  Versions.filename v = filename →
  fetch (Versions.url v) (Worker.network s) = (inr origin, n) →
  Worker.ok origin = true →
  ∃ response : Worker.Response,
    download filename s
    = (inr response,
       Worker.mkState (Worker.indexes s) (Worker.records s) (Worker.texts s)
         (Worker.clock s) (Worker.ticks s) n)
    ∧ Worker.status response = Worker.origin_status origin
    ∧ Worker.statusText response = Worker.origin_statusText origin
    ∧ Worker.body response = Repo.Buf (Worker.origin_body origin)
    ∧ (∀ length, Worker.content_length origin = Some length → length ≠ [] →
         (lit "Content-Length", length) ∈ Worker.headers response)
    ∧ (lit "Cache-Control", lit "public, max-age=2592000")
      ∈ Worker.headers response.
Proof.
  intros Hledger Hbefore Hfile Hfetch Hok. unfold Worker.handleRpmDownload.
  rewrite (bind_returns _ _ s s (workerLedger provider s))
    by apply worker_getAllVersions.
  rewrite Hledger, (find_first _ before after v).
  - erewrite bind_returns
      by (unfold Worker.fetchOrigin; rewrite Hfetch; reflexivity).
    rewrite Hok. cbn [negb]. eexists. split; [reflexivity|].
    cbn [Worker.status Worker.statusText Worker.body Worker.headers].
    repeat split.
    + intros length Hlength Hnonempty. rewrite Hlength.
      destruct length as [|u length]; [done|]. cbn [truthy default].
      apply elem_of_app. right. apply list_elem_of_here.
    + destruct (truthy _); [apply elem_of_app; left|];
        do 2 apply list_elem_of_further; apply list_elem_of_here.
  - eapply Forall_impl; [exact Hbefore|]. intros v' Hv'.
    by apply bool_decide_eq_false.
  - by apply bool_decide_eq_true.
Qed.

End DownloadFacts.

Lemma X20_provider_failure_witness :
  let s := schedulerState (Meta := jsstring) [entryX] ∅
             [inl (Thrown (lit "HTTP error! status: 503"))] in
  Providers.fetchLatestVersion scripted (Worker.network s)
  = (inl (Thrown (lit "HTTP error! status: 503")), [])
  ∧ Worker.handleScheduledForProvider decimalStamp scripted fileExtract s
    = (inr (), Worker.mkState (Worker.indexes s) (Worker.records s)
                 (Worker.texts s) (Worker.clock s) (Worker.ticks s) []).
Proof.
  intros s. split; [reflexivity|].
  exact (X20_provider_failure_is_contained decimalStamp scripted fileExtract s
           (Thrown (lit "HTTP error! status: 503")) [] eq_refl).
Defined.

Lemma X21_discovery_witness :
  let s := schedulerState (Meta := jsstring) [entryX] ∅ [inr releaseA] in
  Forall (λ v, entryKey v ≠ descriptorKey releaseA) (workerLedger scripted s)
  ∧ Worker.handleScheduledForProvider decimalStamp scripted fileExtract s
    = (inr (),
       Worker.mkState
         (<[Versions.indexKey scripted :=
              Versions.mkVersionIndex
                (stamped decimalStamp releaseA 1000 :: workerLedger scripted s)
                (Some (decimalStamp 1001))]> (Worker.indexes s))
         (<[Metadata.getMetadataKey scripted (Providers.version releaseA)
              (Providers.release releaseA) := Providers.filename releaseA]>
            (Worker.records s))
         (<[Worker.lastCheckKey scripted := intToString 1002]> (Worker.texts s))
         (Worker.clock s) 3 []).
Proof.
  intros s.
  assert (Hnew : Forall (λ v, entryKey v ≠ descriptorKey releaseA)
                   (workerLedger scripted s)).
  { repeat constructor. intros H. vm_compute in H. discriminate H. }
  split; [exact Hnew|].
  exact (X21_discovery_then_extraction decimalStamp scripted fileExtract s
           releaseA [] [] (Providers.filename releaseA) eq_refl Hnew eq_refl).
Defined.

Lemma X22_failed_extraction_witness :
  let s := schedulerState (Meta := jsstring) [entryX] ∅ [inr releaseA] in
  Forall (λ v, entryKey v ≠ descriptorKey releaseA) (workerLedger scripted s)
  ∧ Worker.handleScheduledForProvider decimalStamp scripted downExtract s
    = (inr (),
       Worker.mkState
         (<[Versions.indexKey scripted :=
              Versions.mkVersionIndex
                (stamped decimalStamp releaseA 1000 :: workerLedger scripted s)
                (Some (decimalStamp 1001))]> (Worker.indexes s))
         (Worker.records s) (Worker.texts s) (Worker.clock s) 2 []).
Proof.
  intros s.
  assert (Hnew : Forall (λ v, entryKey v ≠ descriptorKey releaseA)
                   (workerLedger scripted s)).
  { repeat constructor. intros H. vm_compute in H. discriminate H. }
  split; [exact Hnew|].
  exact (X22_failed_extraction_keeps_discovery decimalStamp scripted downExtract s
           releaseA [] [] (Thrown (lit "Failed to fetch RPM: 404")) eq_refl Hnew
           eq_refl).
Defined.

Lemma X23_backfill_witness :
  let s := schedulerState (Meta := jsstring) [entryA; entryX]
             {[ Metadata.getMetadataKey scripted (Versions.version entryA)
                  (Versions.release entryA) := lit "a.rpm" ]}
             [inr releaseA] in
  Exists (λ v, entryKey v = descriptorKey releaseA) (workerLedger scripted s)
  ∧ Forall (λ v, is_Some (recordOf scripted s v)) [entryA]
  ∧ recordOf scripted s entryX = None
  ∧ Worker.handleScheduledForProvider decimalStamp scripted fileExtract s
    = (inr (),
       Worker.mkState (Worker.indexes s)
         (<[Metadata.getMetadataKey scripted (Versions.version entryX)
              (Versions.release entryX) := Versions.filename entryX]>
            (Worker.records s))
         (<[Worker.lastCheckKey scripted := intToString 1000]> (Worker.texts s))
         (Worker.clock s) 1 []).
Proof.
  intros s.
  assert (Hin : Exists (λ v, entryKey v = descriptorKey releaseA)
                  (workerLedger scripted s)) by (by apply Exists_cons_hd).
  assert (Hpresent : Forall (λ v, is_Some (recordOf scripted s v)) [entryA]).
  { apply Forall_singleton. by eexists. }
  assert (Hmissing : recordOf scripted s entryX = None) by reflexivity.
  split; [exact Hin|]. split; [exact Hpresent|]. split; [exact Hmissing|].
  exact (X23_backfill_first_missing decimalStamp scripted fileExtract s releaseA
           [] [] [entryA] [] entryX (Versions.filename entryX) eq_refl Hin
           eq_refl Hpresent Hmissing eq_refl).
Defined.

Lemma X24_idle_run_witness :
  let s := schedulerState (Meta := jsstring) [entryA]
             {[ Metadata.getMetadataKey scripted (Versions.version entryA)
                  (Versions.release entryA) := lit "a.rpm" ]}
             [inr releaseA] in
  Exists (λ v, entryKey v = descriptorKey releaseA) (workerLedger scripted s)
  ∧ Forall (λ v, is_Some (recordOf scripted s v)) (workerLedger scripted s)
  ∧ Worker.handleScheduledForProvider decimalStamp scripted fileExtract s
    = (inr (),
       Worker.mkState (Worker.indexes s) (Worker.records s)
         (<[Worker.lastCheckKey scripted := intToString 1000]> (Worker.texts s))
         (Worker.clock s) 1 []).
Proof.
  intros s.
  assert (Hin : Exists (λ v, entryKey v = descriptorKey releaseA)
                  (workerLedger scripted s)) by (by apply Exists_cons_hd).
  assert (Hpresent : Forall (λ v, is_Some (recordOf scripted s v))
                       (workerLedger scripted s)).
  { apply Forall_singleton. by eexists. }
  split; [exact Hin|]. split; [exact Hpresent|].
  exact (X24_idle_run decimalStamp scripted fileExtract s releaseA [] eq_refl Hin
           Hpresent).
Defined.

Lemma X27_served_revision_witness :
  let s := schedulerState [entryA; entryX]
             {[ Metadata.getMetadataKey scripted (Versions.version entryX)
                  (Versions.release entryX) := plain_pkg ]} [] in
  omap (recordOf scripted s) (workerLedger scripted s) = [plain_pkg]
  ∧ endsWith (lit "/cursor/repodata/repomd.xml") (lit "repomd.xml") = true
  ∧ ∃ (bundle : Repo.RepoMetadata) (rest : jsstring),
      Repo.generateRepoMetadata (λ _, [1; 2]%N) (λ b, 31%N :: b) [plain_pkg] s
      = (inr bundle, s)
      ∧ Worker.handleMetadata (λ _, [1; 2]%N) (λ b, 31%N :: b) scripted
          (lit "/cursor/repodata/repomd.xml") s
        = (inr (Worker.metadataResponse (Repo.Str (Repo.repomd_xml bundle))
                  (lit "application/xml")), s)
      ∧ Repo.repomd_xml bundle
        = repomdHead (Some 1700000000%Z) ++ rest.
Proof.
  intros s. split; [reflexivity|]. split; [reflexivity|].
  exact (X27_served_revision (λ _, [1; 2]%N) (λ b, 31%N :: b) scripted
           (lit "/cursor/repodata/repomd.xml") s plain_pkg [] eq_refl eq_refl).
Defined.

Lemma X28_unknown_file_witness :
  let s := schedulerState (Meta := jsstring) [entryX] ∅ [] in
  Forall (λ v, Versions.filename v ≠ lit "nope.rpm") (workerLedger scripted s)
  ∧ Worker.handleRpmDownload scripted originFetch (lit "nope.rpm") s
    = (inr (Worker.mkResponse 404 emptyString
              (Repo.Str (lit "RPM not found in index")) []), s).
Proof.
  intros s.
  assert (H : Forall (λ v, Versions.filename v ≠ lit "nope.rpm")
                (workerLedger scripted s)).
  { repeat constructor. intros H. vm_compute in H. discriminate H. }
  split; [exact H|].
  exact (X28_unknown_file_not_fetched scripted originFetch (lit "nope.rpm") s H).
Defined.

Lemma X29_download_witness :
  let s := schedulerState (Meta := jsstring) [entryX] ∅ [] in
  let origin := Worker.mkOriginResponse true 200 (lit "OK") (Some (lit "3"))
                  [1; 2; 3]%N in
  workerLedger scripted s = [] ++ entryX :: []
  ∧ ∃ response : Worker.Response,
      Worker.handleRpmDownload scripted originFetch (Versions.filename entryX) s
      = (inr response,
         Worker.mkState (Worker.indexes s) (Worker.records s) (Worker.texts s)
           (Worker.clock s) (Worker.ticks s) [])
      ∧ Worker.status response = 200%Z
      ∧ Worker.statusText response = lit "OK"
      ∧ Worker.body response = Repo.Buf [1; 2; 3]%N
      ∧ (∀ length, Worker.content_length origin = Some length → length ≠ [] →
           (lit "Content-Length", length) ∈ Worker.headers response)
      ∧ (lit "Cache-Control", lit "public, max-age=2592000")
        ∈ Worker.headers response.
Proof.
  intros s origin. split; [reflexivity|].
  exact (X29_download_passes_origin scripted originFetch (Versions.filename entryX)
           s [] [] entryX origin [] eq_refl (Forall_nil_2 _) eq_refl eq_refl
           eq_refl).
Defined.

(** ** Properties of src/providers/cursor.ts *)


